(** * dbfs: the FUSE driver layer of sqlfs.cpp

    A shallow embedding of the filesystem callbacks of [sqlfs.cpp]: the
    native primitives they call act on an explicit [World] (backing store,
    descriptor table, directory streams, errno, call trace), the callbacks
    are written in a state-and-crash monad over it, and the helpers that
    [UtilsPrivate.h] only declares are either fields of an environment
    record or definitions marked as modelled. *)

From Stdlib Require Import ZArith String Ascii List Lia Bool.
From Stdlib Require Import Strings.Byte.
From stdpp Require Import base option list gmap strings fin_maps.

Local Open Scope Z_scope.

(** ** C integers *)

(** [int] is 32 bits wide; a conversion from a wider type wraps. *)
Definition to_int (z : Z) : Z := (z + 2 ^ 31) mod 2 ^ 32 - 2 ^ 31.

(** [uint64_t], the type of [fuse_file_info::fh]. *)
Definition to_uint64 (z : Z) : Z := z mod 2 ^ 64.

(** errno values of Linux used by the model. *)
Definition EPERM : Z := 1.
Definition ENOENT : Z := 2.
Definition EBADF : Z := 9.
Definition EEXIST : Z := 17.
Definition ENOTDIR : Z := 20.
Definition EISDIR : Z := 21.
Definition EFBIG : Z := 27.
Definition EOPNOTSUPP : Z := 95.

(** open(2) access modes. *)
Definition O_RDONLY : Z := 0.
Definition O_WRONLY : Z := 1.
Definition O_RDWR : Z := 2.
Definition O_ACCMODE : Z := 3.

Definition DEFAULT_PERMISSIONS : Z := 511.

(** ** Strings *)

(** [strstr(haystack, needle) != NULL]. *)
Definition strstr (haystack needle : string) : bool :=
  match String.index 0 needle haystack with
  | Some _ => true
  | None => false
  end.

(** [std::string::find(needle)], [None] standing for [string::npos]. *)
Definition find (s needle : string) : option nat := String.index 0 needle s.

(** [std::string::substr(pos, len)]. *)
Definition substr (s : string) (pos len : nat) : string :=
  String.substring pos len s.

(** The pieces of [s] between occurrences of [delim], empty ones included;
    [cur] is the piece being read, reversed. *)
Fixpoint pieces (delim : ascii) (cur : string) (s : string) : list string :=
  match s with
  | EmptyString => [String.rev cur]
  | String a s' =>
      if Ascii.eqb a delim
      then String.rev cur :: pieces delim EmptyString s'
      else pieces delim (String a cur) s'
  end.

Definition nonempty (s : string) : bool :=
  match s with EmptyString => false | String _ _ => true end.

(** Modelled from the spec: [Split] is declared in [UtilsPrivate.h] and its
    body is not part of [sqlfs.cpp]. The path is split into its
    [/]-delimited segments and segment 0 is the server name; the paths FUSE
    hands over start with [/], so the segments are the non-empty pieces. *)
Definition Split (s : string) (delim : ascii) : list string :=
  List.filter nonempty (pieces delim EmptyString s).

(** ** The query of a metadata file *)

Inductive FileFormat := TYPE_TSV | TYPE_JSON.

Global Instance FileFormat_eq_dec : EqDecision FileFormat.
Proof. solve_decision. Defined.

(** Lines 692-710 of [GetDmvFileContent]: the view name, the format and the
    query text computed from [tokens[1]]. *)
Definition dmv_query (filename : string) : string * FileFormat * string :=
  match find filename ".json" with
  | Some found =>
      let filename := substr filename 0 found in
      let type := TYPE_JSON in
      let tempString1 := "SELECT * FROM [master].[sys].[" in
      let tempString2 := "] FOR JSON AUTO, ROOT('info')" in
      (filename, type, tempString1 +:+ filename +:+ tempString2)
  | None =>
      let type := TYPE_TSV in
      let tempString1 := "SELECT * FROM [master].[sys].[" in
      let tempString2 := "]" in
      (filename, type, tempString1 +:+ filename +:+ tempString2)
  end.

(** ** The world the driver runs in *)

(** A node of the host filesystem.  Only regular files and directories are
    modelled; access permissions are not. *)
Inductive node :=
| Reg (data : list byte)
| Dir.

Global Instance byte_eq_dec : EqDecision byte := Byte.byte_eq_dec.

Global Instance node_eq_dec : EqDecision node.
Proof. solve_decision. Defined.

(** An open file description: the path it was opened on and its access
    mode.  A descriptor names its file by backing path. *)
Record ofile := { of_path : string; of_mode : Z }.

Definition DT_DIR : Z := 4.
Definition DT_REG : Z := 8.

Record dirent := { d_name : string; d_type : Z }.

(** A [DIR] stream: the directory it reads, the entries fetched from the
    directory since the stream was opened or rewound (none before the first
    [readdir]), and the position in them. *)
Record dirstream := {
  ds_path : string;
  ds_buf : option (list dirent);
  ds_pos : nat }.

(** Calls of native primitives and of the collaborators, with their
    results. *)
Inductive event :=
| EvOpen (path : string) (flags : Z) (ret : Z)
| EvClose (fd : Z) (ret : Z)
| EvPread (fd : Z) (size offset : Z) (ret : Z)
| EvPwrite (fd : Z) (buf : list byte) (offset : Z) (ret : Z)
| EvTruncate (path : string) (size : Z) (ret : Z)
| EvFallocate (fd : Z) (offset len : Z) (ret : Z)
| EvUnlink (path : string) (ret : Z)
| EvMkdir (path : string) (mode : Z) (ret : Z)
| EvCreate (path : string) (ret : Z)
| EvOpendir (path : string) (ret : Z)
| EvRewinddir (dp : Z)
| EvClosedir (dp : Z) (ret : Z)
| EvExecuteQuery (query hostname username password : string)
    (type : FileFormat) (ret : Z)
| EvExecuteCustomQuery (queryFilePath outputPath hostname username
    password : string) (ret : Z)
| EvKillSelf.

Record World := {
  files : gmap string node;     (* the host filesystem, by absolute path *)
  fds : gmap Z ofile;           (* the descriptor table of the process *)
  dirs : gmap Z dirstream;      (* the open directory streams, by address *)
  errno : Z;
  room : option nat;            (* the largest size a file may grow to *)
  trace : list event }.         (* the calls made so far, oldest first *)

Definition set_files (f : gmap string node) (w : World) : World :=
  {| files := f; fds := fds w; dirs := dirs w; errno := errno w;
     room := room w; trace := trace w |}.
Definition set_fds (f : gmap Z ofile) (w : World) : World :=
  {| files := files w; fds := f; dirs := dirs w; errno := errno w;
     room := room w; trace := trace w |}.
Definition set_dirs (d : gmap Z dirstream) (w : World) : World :=
  {| files := files w; fds := fds w; dirs := d; errno := errno w;
     room := room w; trace := trace w |}.
Definition set_errno (e : Z) (w : World) : World :=
  {| files := files w; fds := fds w; dirs := dirs w; errno := e;
     room := room w; trace := trace w |}.
Definition log (e : event) (w : World) : World :=
  {| files := files w; fds := fds w; dirs := dirs w; errno := errno w;
     room := room w; trace := trace w ++ [e] |}.

(** ** The monad of the callbacks: state, and the ways a call can end the
    process instead of returning. *)

Inductive crash :=
| AssertFailed     (* assert(...) did not hold *)
| NullDeref        (* a member of a null pointer was read *)
| OutOfRange       (* vector::operator[] past the end *)
| Killed.          (* KillSelf() *)

Inductive result (A : Type) :=
| Ok (a : A) (w : World)
| Crash (c : crash) (w : World).
Arguments Ok {A} a w.
Arguments Crash {A} c w.

Definition M (A : Type) : Type := World → result A.

Global Instance M_ret : MRet M := λ A a w, Ok a w.
Global Instance M_bind : MBind M := λ A B f m w,
  match m w with
  | Ok a w' => f a w'
  | Crash c w' => Crash c w'
  end.

Definition die {A} (c : crash) : M A := λ w, Crash c w.

Definition assert (b : bool) : M unit :=
  if b then mret tt else die AssertFailed.

(** [tokens[i]] on a [vector<string>]. *)
Definition at_ (tokens : list string) (i : nat) : M string :=
  match tokens !! i with
  | Some s => mret s
  | None => die OutOfRange
  end.

(** [p->member] on a pointer that may be null. *)
Definition deref {A} (p : option A) : M A :=
  match p with
  | Some a => mret a
  | None => die NullDeref
  end.

Definition world_of {A} (r : result A) : World :=
  match r with Ok _ w => w | Crash _ w => w end.

Definition value_of {A} (r : result A) : option A :=
  match r with Ok a _ => Some a | Crash _ _ => None end.

Definition crash_of {A} (r : result A) : option crash :=
  match r with Ok _ _ => None | Crash c _ => Some c end.

(** ** Native primitives

    Each primitive returns what the system call returns, sets [errno] on
    failure and appends its call to the trace. *)

Definition EINVAL : Z := 22.

(** The lowest number from [n] on that is not a key of [m]. *)
Fixpoint lowest_free {A} (m : gmap Z A) (n : Z) (fuel : nat) : Z :=
  match fuel with
  | O => n
  | S k =>
      match m !! n with
      | None => n
      | Some _ => lowest_free m (n + 1) k
      end
  end.

(** The descriptor [open] hands out next: the lowest one not in use. *)
Definition next_fd (w : World) : Z := lowest_free (fds w) 0 (size (fds w)).

Definition sys_open (path : string) (flags : Z) : M Z := λ w,
  let mode := Z.land flags O_ACCMODE in
  let fd := next_fd w in
  let grant :=
    Ok fd (log (EvOpen path flags fd)
             (set_fds (<[fd := {| of_path := path; of_mode := mode |}]> (fds w)) w)) in
  let refuse e := Ok (-1) (log (EvOpen path flags (-1)) (set_errno e w)) in
  match files w !! path with
  | Some (Reg _) => grant
  | Some Dir => if mode =? O_RDONLY then grant else refuse EISDIR
  | None => refuse ENOENT
  end.

Definition sys_close (fd : Z) : M Z := λ w,
  match fds w !! fd with
  | Some _ => Ok 0 (log (EvClose fd 0) (set_fds (delete fd (fds w)) w))
  | None => Ok (-1) (log (EvClose fd (-1)) (set_errno EBADF w))
  end.

Definition sys_pread (fd : Z) (size offset : Z) : M (Z * list byte) := λ w,
  let refuse e :=
    Ok (-1, []) (log (EvPread fd size offset (-1)) (set_errno e w)) in
  match fds w !! fd with
  | Some o =>
      if of_mode o =? O_WRONLY then refuse EBADF
      else if offset <? 0 then refuse EINVAL
      else match files w !! of_path o with
           | Some (Reg data) =>
               let got := take (Z.to_nat size) (drop (Z.to_nat offset) data) in
               let n := Z.of_nat (length got) in
               Ok (n, got) (log (EvPread fd size offset n) w)
           | Some Dir => refuse EISDIR
           | None => refuse EBADF
           end
  | None => refuse EBADF
  end.

(** [buf] written into [data] at [off], the gap filled with zero bytes. *)
Definition write_at (data : list byte) (off : nat) (buf : list byte) : list byte :=
  take off (data ++ replicate (off - length data) x00)
    ++ buf ++ drop (off + length buf) data.

(** How many of [len] bytes at [off] fit under the size limit.  A write
    that asks for more than there is room for writes what fits. *)
Definition fits (limit : option nat) (off len : nat) : nat :=
  match limit with
  | None => len
  | Some limit => Nat.min len (limit - off)
  end.

Definition sys_pwrite (fd : Z) (buf : list byte) (offset : Z) : M Z := λ w,
  let refuse e := Ok (-1) (log (EvPwrite fd buf offset (-1)) (set_errno e w)) in
  match fds w !! fd with
  | Some o =>
      if of_mode o =? O_RDONLY then refuse EBADF
      else if offset <? 0 then refuse EINVAL
      else match files w !! of_path o with
           | Some (Reg data) =>
               let off := Z.to_nat offset in
               let n := fits (room w) off (length buf) in
               match n, buf with
               | O, _ :: _ => refuse EFBIG
               | _, _ =>
                   let data' := write_at data off (take n buf) in
                   Ok (Z.of_nat n)
                      (log (EvPwrite fd buf offset (Z.of_nat n))
                         (set_files (<[of_path o := Reg data']> (files w)) w))
               end
           | _ => refuse EBADF
           end
  | None => refuse EBADF
  end.

(** [data] cut or zero-extended to [size] bytes. *)
Definition resize (data : list byte) (size : nat) : list byte :=
  take size data ++ replicate (size - length data) x00.

Definition sys_truncate (path : string) (size : Z) : M Z := λ w,
  let refuse e := Ok (-1) (log (EvTruncate path size (-1)) (set_errno e w)) in
  match files w !! path with
  | Some (Reg data) =>
      if size <? 0 then refuse EINVAL
      else if (fits (room w) 0 (Z.to_nat size) <? Z.to_nat size)%nat
      then refuse EFBIG
      else Ok 0 (log (EvTruncate path size 0)
                   (set_files (<[path := Reg (resize data (Z.to_nat size))]> (files w)) w))
  | Some Dir => refuse EISDIR
  | None => refuse ENOENT
  end.

(** [posix_fallocate] returns the error number itself. *)
Definition sys_posix_fallocate (fd : Z) (offset len : Z) : M Z := λ w,
  let refuse e := Ok e (log (EvFallocate fd offset len e) w) in
  match fds w !! fd with
  | Some o =>
      if of_mode o =? O_RDONLY then refuse EBADF
      else if (offset <? 0) || (len <=? 0) then refuse EINVAL
      else match files w !! of_path o with
           | Some (Reg data) =>
               let size := Z.to_nat (offset + len) in
               if (fits (room w) 0 size <? size)%nat then refuse EFBIG
               else
                 let data' := if (length data <? size)%nat
                              then resize data size else data in
                 Ok 0 (log (EvFallocate fd offset len 0)
                         (set_files (<[of_path o := Reg data']> (files w)) w))
           | _ => refuse EBADF
           end
  | None => refuse EBADF
  end.

Definition sys_unlink (path : string) : M Z := λ w,
  let refuse e := Ok (-1) (log (EvUnlink path (-1)) (set_errno e w)) in
  match files w !! path with
  | Some (Reg _) =>
      Ok 0 (log (EvUnlink path 0) (set_files (delete path (files w)) w))
  | Some Dir => refuse EISDIR
  | None => refuse ENOENT
  end.

(** The path without its last segment; the empty string is the root. *)
Fixpoint after_slash (s : string) : string :=
  match s with
  | EmptyString => EmptyString
  | String a s' => if Ascii.eqb a "/" then s' else after_slash s'
  end.

Definition dirname (path : string) : string :=
  String.rev (after_slash (String.rev path)).

Definition is_dir (fs : gmap string node) (d : string) : bool :=
  match d with
  | EmptyString => true
  | _ => match fs !! d with Some Dir => true | _ => false end
  end.

Definition sys_mkdir (path : string) (mode : Z) : M Z := λ w,
  let refuse e := Ok (-1) (log (EvMkdir path mode (-1)) (set_errno e w)) in
  match files w !! path with
  | Some _ => refuse EEXIST
  | None =>
      if is_dir (files w) (dirname path)
      then Ok 0 (log (EvMkdir path mode 0)
                   (set_files (<[path := Dir]> (files w)) w))
      else refuse ENOENT
  end.

(** [creat(dir/name)] followed by [close]: an empty regular file of that
    name in [dir], an existing one emptied. *)
Definition sys_create (dir name : string) : M Z := λ w,
  let path := dir +:+ "/" +:+ name in
  let refuse e := Ok (-1) (log (EvCreate path (-1)) (set_errno e w)) in
  let make := Ok 0 (log (EvCreate path 0)
                      (set_files (<[path := Reg []]> (files w)) w)) in
  match files w !! dir with
  | Some Dir =>
      match files w !! path with
      | Some Dir => refuse EISDIR
      | _ => make
      end
  | Some (Reg _) => refuse ENOTDIR
  | None => refuse ENOENT
  end.

(** *** Directories and directory streams *)

Fixpoint strip_prefix (p s : string) : option string :=
  match p, s with
  | EmptyString, _ => Some s
  | String a p', String b s' =>
      if Ascii.eqb a b then strip_prefix p' s' else None
  | String _ _, EmptyString => None
  end.

Fixpoint has_char (c : ascii) (s : string) : bool :=
  match s with
  | EmptyString => false
  | String a s' => Ascii.eqb a c || has_char c s'
  end.

(** A file name: not empty and without a slash. *)
Definition valid_name (n : string) : bool :=
  nonempty n && negb (has_char "/" n).

(** The name under which [k] is an entry of directory [d], if it is one. *)
Definition child_name (d k : string) : option string :=
  match strip_prefix (d +:+ "/") k with
  | Some n => if valid_name n then Some n else None
  | None => None
  end.

Definition dtype (v : node) : Z :=
  match v with Reg _ => DT_REG | Dir => DT_DIR end.

Definition dir_entries (d : string) (fs : gmap string node) : list dirent :=
  omap (λ kv : string * node,
          match child_name d kv.1 with
          | Some n => Some {| d_name := n; d_type := dtype kv.2 |}
          | None => None
          end)
       (map_to_list fs).

Definition dots : list dirent :=
  [ {| d_name := "."; d_type := DT_DIR |};
    {| d_name := ".."; d_type := DT_DIR |} ].

(** [opendir]: the address of the new stream, 0 (NULL) on failure. *)
Definition sys_opendir (path : string) : M Z := λ w,
  let refuse e := Ok 0 (log (EvOpendir path 0) (set_errno e w)) in
  match files w !! path with
  | Some Dir =>
      let dp := lowest_free (dirs w) 1 (size (dirs w)) in
      Ok dp (log (EvOpendir path dp)
               (set_dirs (<[dp := {| ds_path := path; ds_buf := None;
                                     ds_pos := 0 |}]> (dirs w)) w))
  | Some (Reg _) => refuse ENOTDIR
  | None => refuse ENOENT
  end.

(** The entries a stream reads from: those it has fetched, or the current
    content of its directory when it has fetched none yet. *)
Definition stream_buf (s : dirstream) (fs : gmap string node) : list dirent :=
  match ds_buf s with
  | Some b => b
  | None => dots ++ dir_entries (ds_path s) fs
  end.

Definition sys_readdir (dp : Z) : M (option dirent) := λ w,
  match dirs w !! dp with
  | Some s =>
      let b := stream_buf s (files w) in
      let de := b !! ds_pos s in
      let pos := match de with Some _ => S (ds_pos s) | None => ds_pos s end in
      Ok de (set_dirs (<[dp := {| ds_path := ds_path s; ds_buf := Some b;
                                  ds_pos := pos |}]> (dirs w)) w)
  | None => Ok None (set_errno EBADF w)
  end.

Definition sys_rewinddir (dp : Z) : M unit := λ w,
  match dirs w !! dp with
  | Some s =>
      Ok tt (log (EvRewinddir dp)
               (set_dirs (<[dp := {| ds_path := ds_path s; ds_buf := None;
                                     ds_pos := 0 |}]> (dirs w)) w))
  | None => Ok tt (log (EvRewinddir dp) w)
  end.

Definition sys_closedir (dp : Z) : M Z := λ w,
  match dirs w !! dp with
  | Some _ => Ok 0 (log (EvClosedir dp 0) (set_dirs (delete dp (dirs w)) w))
  | None => Ok (-1) (log (EvClosedir dp (-1)) (set_errno EBADF w))
  end.

(** The number of entries a stream has left to return. *)
Definition entries_left (dp : Z) (w : World) : nat :=
  match dirs w !! dp with
  | Some s => (length (stream_buf s (files w)) - ds_pos s)%nat
  | None => 0%nat
  end.

(** [while ((de = readdir(dp)) != NULL) body], the body returning [true]
    for [break]. *)
Fixpoint while_readdir {S} (fuel : nat) (dp : Z)
    (body : dirent → S → M (bool * S)) (s : S) : M S :=
  match fuel with
  | O => mret s
  | Datatypes.S k =>
      de ← sys_readdir dp;
      match de with
      | None => mret s
      | Some e =>
          '(stop, s') ← body e s;
          if (stop : bool) then mret s' else while_readdir k dp body s'
      end
  end.

(** The loop runs once per entry left and once more for the [NULL]. *)
Definition readdir_loop {S} (dp : Z) (body : dirent → S → M (bool * S))
    (s : S) : M S := λ w,
  while_readdir (Datatypes.S (entries_left dp w)) dp body s w.

(** ** The environment: configuration and collaborators *)

Record ServerInfo := {
  m_hostname : string;
  m_username : string;
  m_password : string;
  m_version : Z;
  m_customQueriesPath : string }.

(** What [UtilsPrivate.h] declares and [sqlfs.cpp] uses without defining:
    the configured paths, the reserved folder name, the classifier of
    driver-owned files, the server registry, and the collaborators that
    talk to the server or list a directory outside the backing store. *)
Record Env := {
  m_dumpPath : string;
  CUSTOM_QUERY_FOLDER_NAME : string;
  IsDbfsFile : string → bool;
  (* entries in key order, as iteration over the std::map visits them *)
  g_ServerInfoMap : list (string * ServerInfo);
  (* query, hostname, username, password, type: status and response *)
  ExecuteQuery : string → string → string → string → FileFormat → Z * string;
  (* query file, output path, hostname, username, password: status and
     the text the collaborator writes to the output path, if any *)
  ExecuteCustomQuery :
    string → string → string → string → string → Z * option string;
  (* the names in a custom-query source directory *)
  listFiles : string → list string;
  (* the metadata views known for a server *)
  dmvNames : string → list string }.

Record fuse_file_info := { flags : Z; fh : Z }.

Definition set_fh (h : Z) (fi : fuse_file_info) : fuse_file_info :=
  {| flags := flags fi; fh := h |}.

(** The buffer [readdir] fills: names with the [st_mode] handed over. *)
Definition dirbuf : Type := list (string * Z).

(** [fuse_fill_dir_t]: the buffer after the call and the value returned
    (non-zero when the buffer is full). *)
Definition fuse_fill_dir_t : Type := dirbuf → string → Z → Z * dirbuf.


Fixpoint for_each {A} (l : list A) (f : A → M unit) : M unit :=
  match l with
  | [] => mret tt
  | x :: l' => f x;; for_each l' f
  end.

Fixpoint assoc {A} (k : string) (l : list (string * A)) : option A :=
  match l with
  | [] => None
  | (k', v) :: l' => if String.eqb k k' then Some v else assoc k l'
  end.

Section Driver.

Variable E : Env.

(** *** Helpers declared in [UtilsPrivate.h] *)

(** Modelled from the spec: [CalculateDumpPath] is not defined in
    [sqlfs.cpp]. It substitutes the backing root for the external root and
    keeps the relative structure. *)
Definition CalculateDumpPath (path : string) : string :=
  m_dumpPath E +:+ path.

(** Modelled from the spec: [ReturnErrnoAndPrintError] is not defined in
    [sqlfs.cpp]. The native error is reported 1:1, as [-errno] (the header
    comment of every caller: "0 on success and -errno on error"). *)
Definition ReturnErrnoAndPrintError : M Z := λ w, Ok (- errno w) w.

(** Modelled from the spec: [GetServerInfo] is not defined in [sqlfs.cpp].
    [lookup(name)] in the registry: the entry or absent. *)
Definition GetServerInfo (servername : string) : option ServerInfo :=
  assoc servername (g_ServerInfoMap E).

(** Modelled from the spec: [GetServerDetails] is not defined in
    [sqlfs.cpp]. It looks the connection info of the server up; the strings
    of an absent server stay empty. *)
Definition GetServerDetails (servername : string) : string * string * string :=
  match GetServerInfo servername with
  | Some si => (m_hostname si, m_username si, m_password si)
  | None => (EmptyString, EmptyString, EmptyString)
  end.

(** The call of the query-execution collaborator. *)
Definition call_ExecuteQuery (query hostname username password : string)
    (type : FileFormat) : M (Z * string) := λ w,
  let r := ExecuteQuery E query hostname username password type in
  Ok r (log (EvExecuteQuery query hostname username password type r.1) w).

(** The call of the custom-query collaborator, which does its own I/O on
    the output path. *)
Definition call_ExecuteCustomQuery (queryFilePath outputPath hostname
    username password : string) : M Z := λ w,
  let r := ExecuteCustomQuery E queryFilePath outputPath hostname username
             password in
  let w' :=
    match r.2, files w !! outputPath with
    | Some text, Some (Reg _) =>
        set_files (<[outputPath := Reg (String.list_byte_of_string text)]>
                     (files w)) w
    | _, _ => w
    end in
  Ok r.1 (log (EvExecuteCustomQuery queryFilePath outputPath hostname
                 username password r.1) w').

(** Modelled from the spec: [KillSelf] is not defined in [sqlfs.cpp]. The
    failure is fatal: the process terminates. *)
Definition KillSelf : M unit := λ w, Crash Killed (log EvKillSelf w).

(** *** [TruncateLocalImpl], [UnlinkLocalImpl] *)

Definition TruncateLocalImpl (path : string) (size : Z) : M Z :=
  let fpath := CalculateDumpPath path in
  result ← sys_truncate fpath size;
  if result =? -1 then ReturnErrnoAndPrintError else mret result.

Definition UnlinkLocalImpl (path : string) : M Z :=
  let fpath := CalculateDumpPath path in
  result ← sys_unlink fpath;
  if result =? -1 then ReturnErrnoAndPrintError else mret result.

(** *** [GetFileDescriptorForPath], [CloseFileDesciptorIfOpened] *)

Definition is_null {A} (p : option A) : bool :=
  match p with None => true | Some _ => false end.

Definition GetFileDescriptorForPath (path : string)
    (fi : option fuse_file_info) : M Z :=
  if is_null fi then
    let fpath := CalculateDumpPath path in
    fi_ ← deref fi;
    fd ← sys_open fpath (flags fi_);
    (if fd =? -1 then ReturnErrnoAndPrintError else mret 0);;
    mret fd
  else
    fi_ ← deref fi;
    mret (to_int (fh fi_)).

Definition CloseFileDesciptorIfOpened (fi : option fuse_file_info)
    (fd : Z) : M unit :=
  if is_null fi then
    result ← sys_close fd;
    (if result =? 0 then mret 0 else ReturnErrnoAndPrintError);;
    mret tt
  else mret tt.

(** *** [GetDmvFileContent] *)

Definition GetDmvFileContent (path : string) : M Z :=
  let error := 0 in
  let dumpPath := CalculateDumpPath path in
  fd ← sys_open dumpPath O_WRONLY;
  if negb (fd =? -1) then
    let tokens := Split path "/" in
    assert (1 <? length tokens)%nat;;
    servername ← at_ tokens 0;
    filename ← at_ tokens 1;
    let '(filename, type, query) := dmv_query filename in
    let '(hostname, username, password) := GetServerDetails servername in
    r ← call_ExecuteQuery query hostname username password type;
    let '(error, responseString) := r in
    error ← (if error =? 0 then
               n ← sys_pwrite fd (String.list_byte_of_string responseString) 0;
               if n =? -1 then ReturnErrnoAndPrintError else mret error
             else mret error);
    sys_close fd;;
    mret error
  else
    ReturnErrnoAndPrintError.

(** *** [OpenLocalImpl] *)

Definition OpenLocalImpl (path : string) (fi : fuse_file_info)
    : M (Z * fuse_file_info) :=
  let error := 0 in
  let fpath := CalculateDumpPath path in
  fd ← sys_open fpath (flags fi);
  r ← (if fd =? -1
       then error ← ReturnErrnoAndPrintError; mret (error, fi)
       else mret (error, set_fh (to_uint64 fd) fi));
  let '(error, fi) := r in
  error ← (if error =? 0 then
             if IsDbfsFile E path then
               if strstr path (CUSTOM_QUERY_FOLDER_NAME E) then
                 let tokens := Split path "/" in
                 assert (1 <? length tokens)%nat;;
                 servername ← at_ tokens 0;
                 filename ← at_ tokens 2;
                 segment ← at_ tokens 1;
                 assert (String.eqb segment (CUSTOM_QUERY_FOLDER_NAME E));;
                 match GetServerInfo servername with
                 | Some serverInfo =>
                     let userQueriesPath := m_customQueriesPath serverInfo in
                     if nonempty userQueriesPath then
                       let queryFilePath :=
                         userQueriesPath +:+ "/" +:+ filename in
                       call_ExecuteCustomQuery queryFilePath fpath
                         (m_hostname serverInfo) (m_username serverInfo)
                         (m_password serverInfo);;
                       mret error
                     else mret error
                 | None => mret error
                 end
               else GetDmvFileContent path
             else mret error
           else mret error);
  if negb (error =? 0) && negb (fd =? -1) then
    sys_close fd;;
    mret (error, set_fh (to_uint64 (-1)) fi)
  else mret (error, fi).

(** *** [ReadLocalImpl], [WriteLocalImpl], [FallocateLocalImpl] *)

(** The result and the bytes placed in [buf]. *)
Definition ReadLocalImpl (path : string) (size offset : Z)
    (fi : option fuse_file_info) : M (Z * list byte) :=
  let result := -1 in
  fd ← GetFileDescriptorForPath path fi;
  if negb (fd =? -1) then
    r ← sys_pread fd size offset;
    let '(n, got) := r in
    let result := to_int n in
    result ← (if result =? -1 then ReturnErrnoAndPrintError else mret result);
    CloseFileDesciptorIfOpened fi fd;;
    mret (result, got)
  else mret (result, []).

Definition WriteLocalImpl (path : string) (buf : list byte) (size offset : Z)
    (fi : option fuse_file_info) : M Z :=
  let result := 0 in
  if negb (IsDbfsFile E path) then
    fd ← GetFileDescriptorForPath path fi;
    if negb (fd =? -1) then
      n ← sys_pwrite fd (take (Z.to_nat size) buf) offset;
      let result := to_int n in
      result ← (if result =? -1 then ReturnErrnoAndPrintError else mret result);
      CloseFileDesciptorIfOpened fi fd;;
      mret result
    else mret result
  else
    mret (- EPERM).

Definition FallocateLocalImpl (path : string) (mode offset length : Z)
    (fi : option fuse_file_info) : M Z :=
  let result := 0 in
  fd ← GetFileDescriptorForPath path fi;
  if negb (fd =? -1) then
    result ← (if negb (mode =? 0) then mret (- EOPNOTSUPP)
              else e ← sys_posix_fallocate fd offset length; mret (- e));
    CloseFileDesciptorIfOpened fi fd;;
    mret result
  else mret result.

(** *** [ReleaseLocalImpl] *)

Definition ReleaseLocalImpl (path : string) (fi : fuse_file_info) : M Z :=
  let result := 0 in
  result ← (if IsDbfsFile E path then
              result ← TruncateLocalImpl path 0;
              if result =? -1 then ReturnErrnoAndPrintError else mret result
            else mret result);
  result ← sys_close (to_int (fh fi));
  if result =? -1 then ReturnErrnoAndPrintError else mret result.

(** *** [OpendirLocalImpl], [ReaddirLocalImpl], [ReleasedirLocalImpl] *)

(** The names in the custom-query source directory of a server; none when
    the server is not registered or has no such directory configured. *)
Definition source_entries (servername : string) : list string :=
  match GetServerInfo servername with
  | Some serverInfo =>
      let userQueriesPath := m_customQueriesPath serverInfo in
      if nonempty userQueriesPath then listFiles E userQueriesPath else []
  | None => []
  end.

(** Modelled from the spec: [RemoveCustomQueriesOutputFiles] is not defined
    in [sqlfs.cpp]. It deletes every regular file currently present in the
    backing custom-query directory, reading the directory through the stream
    it is handed. *)
Definition RemoveCustomQueriesOutputFiles (dp : Z) (dumpPath : string)
    : M unit :=
  readdir_loop dp
    (λ de (_ : unit),
       (if d_type de =? DT_REG
        then sys_unlink (dumpPath +:+ "/" +:+ d_name de);; mret tt
        else mret tt);;
       mret (false, tt))
    tt.

(** Modelled from the spec: [CreateCustomQueriesOutputFiles] is not defined
    in [sqlfs.cpp]. It re-reads the custom-query source directory configured
    for the server and, for every entry found there, creates a same-named
    zero-length placeholder file in the backing custom-query directory. *)
Definition CreateCustomQueriesOutputFiles (servername dumpPath : string)
    : M unit :=
  for_each (source_entries servername)
    (λ name, sys_create dumpPath name;; mret tt).

Definition OpendirLocalImpl (path : string) (fi : fuse_file_info)
    : M (Z * fuse_file_info) :=
  let failed := 0 in
  let fpath := CalculateDumpPath path in
  dp ← sys_opendir fpath;
  if negb (dp =? 0) then
    let fi := set_fh dp fi in
    if strstr path (CUSTOM_QUERY_FOLDER_NAME E) then
      RemoveCustomQueriesOutputFiles dp fpath;;
      sys_rewinddir dp;;
      let tokens := Split path "/" in
      assert (1 <? length tokens)%nat;;
      servername ← at_ tokens 0;
      segment ← at_ tokens 1;
      assert (String.eqb segment (CUSTOM_QUERY_FOLDER_NAME E));;
      CreateCustomQueriesOutputFiles servername fpath;;
      mret (failed, fi)
    else mret (failed, fi)
  else
    failed ← ReturnErrnoAndPrintError;
    mret (failed, set_fh 0 fi).

Definition ReaddirLocalImpl (path : string) (buf : dirbuf)
    (filler : fuse_fill_dir_t) (offset : Z) (fi : fuse_file_info)
    : M (Z * dirbuf) :=
  let result := 0 in
  let dp := fh fi in
  result ← (if dp =? 0 then ReturnErrnoAndPrintError else mret result);
  if result =? 0 then
    buf ← readdir_loop dp
            (λ de buf,
               let st_mode := Z.shiftl (d_type de) 12 in
               let r := filler buf (d_name de) st_mode in
               mret (negb (r.1 =? 0), r.2))
            buf;
    mret (result, buf)
  else mret (result, buf).

Definition ReleasedirLocalImpl (path : string) (fi : fuse_file_info) : M Z :=
  let error := 0 in
  let dp := fh fi in
  if negb (dp =? 0) then sys_closedir dp else mret error.

(** *** [InitializeSQLFs] *)

(** Modelled from the spec: [CreateDbfsFiles] is not defined in [sqlfs.cpp].
    For a server it creates zero-length placeholder files for every known
    metadata-view name, in the directory of the server. *)
Definition CreateDbfsFiles (servername hostname username password : string)
    (version : Z) : M unit :=
  let dir := CalculateDumpPath ("/" +:+ servername) in
  sys_mkdir dir DEFAULT_PERMISSIONS;;
  for_each (dmvNames E servername) (λ name, sys_create dir name;; mret tt).

Definition InitializeSQLFs : M unit :=
  result ← sys_mkdir (m_dumpPath E) DEFAULT_PERMISSIONS;
  (if result =? -1 then KillSelf else mret tt);;
  for_each (g_ServerInfoMap E)
    (λ itr,
       let entry := itr.2 in
       CreateDbfsFiles itr.1 (m_hostname entry) (m_username entry)
         (m_password entry) (m_version entry)).

End Driver.

(** ** The classification of the specification, and a concrete setting *)

Inductive Kind :=
| Root | ServerRoot | MetadataFile | CustomQueryDir | CustomQueryFile.

(** Modelled from the spec: the classifier of virtual paths is not defined
    in [sqlfs.cpp]. Segment 0 is the server name. If segment 1 equals the
    reserved custom-query folder name, two segments make a custom-query
    directory and three or more a custom-query file; otherwise two or more
    segments make a metadata file. *)
Definition classify (folder path : string) : Kind :=
  match Split path "/" with
  | [] => Root
  | [_] => ServerRoot
  | _ :: segment1 :: rest =>
      if String.eqb segment1 folder
      then match rest with [] => CustomQueryDir | _ => CustomQueryFile end
      else MetadataFile
  end.

(** Modelled from the spec: [IsDbfsFile] is not defined in [sqlfs.cpp]. The
    driver-owned files are the metadata files and the custom-query files. *)
Definition IsDbfsFile_spec (folder path : string) : bool :=
  match classify folder path with
  | MetadataFile | CustomQueryFile => true
  | _ => false
  end.

Module Sample.

Definition srv1 : ServerInfo :=
  {| m_hostname := "db1.example.org"; m_username := "sa"; m_password := "pw";
     m_version := 16; m_customQueriesPath := "/home/u/queries" |}.

(** A server that answers every query with [rows], a custom-query
    collaborator that succeeds, and one registered server. *)
Definition env : Env :=
  {| m_dumpPath := "/tmp/sqlserver";
     CUSTOM_QUERY_FOLDER_NAME := "customQueries";
     IsDbfsFile := IsDbfsFile_spec "customQueries";
     g_ServerInfoMap := [("srv1", srv1)];
     ExecuteQuery := λ _ _ _ _ _, (0, "rows");
     ExecuteCustomQuery := λ _ _ _ _ _, (0, Some "result");
     listFiles := λ _, ["a.sql"; "b.sql"];
     dmvNames := λ _, ["dm_os_hosts"; "dm_os_hosts.json"] |}.

(** The same setting with a server that fails every query and a
    custom-query collaborator that fails. *)
Definition env_failing : Env :=
  {| m_dumpPath := "/tmp/sqlserver";
     CUSTOM_QUERY_FOLDER_NAME := "customQueries";
     IsDbfsFile := IsDbfsFile_spec "customQueries";
     g_ServerInfoMap := [("srv1", srv1)];
     ExecuteQuery := λ _ _ _ _ _, (-1, "");
     ExecuteCustomQuery := λ _ _ _ _ _, (-1, None);
     listFiles := λ _, ["a.sql"; "b.sql"];
     dmvNames := λ _, ["dm_os_hosts"; "dm_os_hosts.json"] |}.

Definition world_of_files (l : list (string * node)) (limit : option nat)
    : World :=
  {| files := list_to_map l; fds := ∅; dirs := ∅; errno := 0;
     room := limit; trace := [] |}.

(** A mounted backing store: the server directory with one metadata file
    in both formats, and the custom-query directory with a stale file. *)
Definition mounted : World :=
  world_of_files
    [ ("/tmp", Dir);
      ("/tmp/sqlserver", Dir);
      ("/tmp/sqlserver/srv1", Dir);
      ("/tmp/sqlserver/srv1/dm_os_hosts", Reg []);
      ("/tmp/sqlserver/srv1/dm_os_hosts.json", Reg []);
      ("/tmp/sqlserver/srv1/customQueries", Dir);
      ("/tmp/sqlserver/srv1/customQueries/old.sql", Reg []);
      (* files and a directory made by the user through the mount *)
      ("/tmp/sqlserver/srv1/dm_os_hosts.json.bak", Reg []);
      ("/tmp/sqlserver/srv1/customQueries_stats", Reg []);
      ("/tmp/sqlserver/srv1/mycustomQueries", Dir);
      ("/tmp/sqlserver/srv1/mycustomQueries/keep.txt", Reg [x41]) ]
    None.

(** The same store when a file may grow to two bytes only. *)
Definition cramped : World :=
  {| files := files mounted; fds := ∅; dirs := ∅; errno := 0;
     room := Some 2%nat; trace := [] |}.

Definition fi0 : fuse_file_info := {| flags := O_RDONLY; fh := 0 |}.

(** The store after [open] of a metadata file: descriptor 0 is held and
    the backing file holds the response. *)
Definition opened : World :=
  world_of (OpenLocalImpl env "/srv1/dm_os_hosts" fi0 mounted).

End Sample.

(** ** Descriptions used in the statements *)

(** The world after a successful [open] of [path]. *)
Definition after_open (path : string) (flags : Z) (w : World) : World :=
  log (EvOpen path flags (next_fd w))
    (set_fds (<[next_fd w := {| of_path := path;
                                of_mode := Z.land flags O_ACCMODE |}]>
                (fds w)) w).

(** The positioned write of a whole buffer at offset 0 into a file holding
    [data]: the value [pwrite] returns and the content afterwards. *)
Definition pwrite0 (limit : option nat) (data buf : list byte)
    : Z * list byte :=
  match fits limit 0 (length buf), buf with
  | O, _ :: _ => (-1, data)
  | n, _ => (Z.of_nat n, write_at data 0 (take n buf))
  end.

(** What [close(fd)] returns to [release]. *)
Definition close_result (w : World) (fd : Z) : Z :=
  match fds w !! fd with
  | Some _ => 0
  | None => - EBADF
  end.

(** The query [GetDmvFileContent] sends for [tokens[0]], [tokens[1]]: its
    text and format, the answer of the server, and the call as it appears
    in the trace. *)
Definition dmv_text (filename : string) : string := (dmv_query filename).2.
Definition dmv_type (filename : string) : FileFormat := (dmv_query filename).1.2.

Definition dmv_answer (E : Env) (servername filename : string) : Z * string :=
  let '(hostname, username, password) := GetServerDetails E servername in
  ExecuteQuery E (dmv_text filename) hostname username password
    (dmv_type filename).

Definition dmv_status (E : Env) (servername filename : string) : Z :=
  (dmv_answer E servername filename).1.

Definition dmv_response (E : Env) (servername filename : string) : list byte :=
  String.list_byte_of_string (dmv_answer E servername filename).2.

Definition dmv_event (E : Env) (servername filename : string) : event :=
  let '(hostname, username, password) := GetServerDetails E servername in
  EvExecuteQuery (dmv_text filename) hostname username password
    (dmv_type filename) (dmv_status E servername filename).

(** The number of calls of the two query collaborators in a trace. *)
Definition is_query (e : event) : bool :=
  match e with
  | EvExecuteQuery _ _ _ _ _ _ => true
  | EvExecuteCustomQuery _ _ _ _ _ _ => true
  | _ => false
  end.

Definition queries (t : list event) : nat := length (List.filter is_query t).



(** What [ReaddirLocalImpl] hands to the filler for an entry. *)
Definition filled (de : dirent) : string * Z :=
  (d_name de, Z.shiftl (d_type de) 12).

(** The statement that a successful open of a metadata file has written the
    full response of the server into the backing file. *)
Definition open_success_writes_full_response (E : Env)
    (path servername filename : string) (fi : fuse_file_info) (w : World)
    : Prop :=
  ∀ fi' w',
    OpenLocalImpl E path fi w = Ok (0, fi') w' →
    ∃ tail,
      files w' !! CalculateDumpPath E path =
      Some (Reg (dmv_response E servername filename ++ tail)).

(** *** "Segment 1 with a trailing [.json] stripped", in the
    words of the specification *)

Definition has_json_suffix (segment : string) : bool :=
  (5 <=? String.length segment)%nat &&
  String.eqb (substr segment (String.length segment - 5) 5) ".json".

Definition spec_base (segment : string) : string :=
  if has_json_suffix segment
  then substr segment 0 (String.length segment - 5)
  else segment.

Definition spec_format (segment : string) : FileFormat :=
  if has_json_suffix segment then TYPE_JSON else TYPE_TSV.

Definition spec_query (segment : string) : string :=
  match spec_format segment with
  | TYPE_TSV => "SELECT * FROM [master].[sys].[" +:+ spec_base segment +:+ "]"
  | TYPE_JSON =>
      "SELECT * FROM [master].[sys].[" +:+ spec_base segment
        +:+ "] FOR JSON AUTO, ROOT('info')"
  end.

(** ** The callbacks that only redirect to the backing store *)

Definition ENOTEMPTY : Z := 39.

(** The file-type bits of [st_mode]. *)
Definition S_IFDIR : Z := 16384.
Definition S_IFREG : Z := 32768.

(** What [lstat] reports of a node: its type and, for a regular file, its
    length.  Permission bits, owners and times are not modelled, and the
    size of a directory is left 0. *)
Record stat := { st_mode : Z; st_size : Z }.

Definition stat_of (v : node) : stat :=
  match v with
  | Reg data => {| st_mode := S_IFREG; st_size := Z.of_nat (length data) |}
  | Dir => {| st_mode := S_IFDIR; st_size := 0 |}
  end.

(** [lstat(path, stbuf)]: the result and the buffer, which a failed call
    leaves as it was.  The call is not recorded in the trace. *)
Definition sys_lstat (path : string) (stbuf : stat) : M (Z * stat) := λ w,
  match files w !! path with
  | Some v => Ok (0, stat_of v) w
  | None => Ok (-1, stbuf) (set_errno ENOENT w)
  end.

(** [rmdir(path)]: only an empty directory is removed.  The call is not
    recorded in the trace. *)
Definition sys_rmdir (path : string) : M Z := λ w,
  match files w !! path with
  | Some Dir =>
      match dir_entries path (files w) with
      | [] => Ok 0 (set_files (delete path (files w)) w)
      | _ :: _ => Ok (-1) (set_errno ENOTEMPTY w)
      end
  | Some (Reg _) => Ok (-1) (set_errno ENOTDIR w)
  | None => Ok (-1) (set_errno ENOENT w)
  end.

(** A filler whose buffer holds [cap] entries: it takes an entry while
    there is room and otherwise returns 1 without taking it. *)
Definition fill_upto (cap : nat) : fuse_fill_dir_t := λ buf name mode,
  if (length buf <? cap)%nat then (0, buf ++ [(name, mode)]) else (1, buf).

(** [-errno]. *)
Definition neg_errno : M Z := λ w, Ok (- errno w) w.

Section Passthrough.

Variable E : Env.

(** [GetattrLocalImpl]: the error is [-errno], computed in place and not
    printed. *)
Definition GetattrLocalImpl (path : string) (stbuf : stat) : M (Z * stat) :=
  let fpath := CalculateDumpPath E path in
  r ← sys_lstat fpath stbuf;
  let '(result, stbuf) := r in
  result ← (if result =? -1 then neg_errno else mret result);
  mret (result, stbuf).

Definition MkdirLocalImpl (path : string) (mode : Z) : M Z :=
  let fpath := CalculateDumpPath E path in
  result ← sys_mkdir fpath mode;
  if result =? -1 then ReturnErrnoAndPrintError else mret result.

Definition RmdirLocalImpl (path : string) : M Z :=
  let fpath := CalculateDumpPath E path in
  result ← sys_rmdir fpath;
  if result =? -1 then ReturnErrnoAndPrintError else mret result.

End Passthrough.

(** [DestroySQLFs] prints a message and returns. *)
Definition DestroySQLFs : M unit := mret tt.

(** A server whose answer is shorter than what the sample store holds
    after an open. *)
Definition env_short : Env :=
  {| m_dumpPath := m_dumpPath Sample.env;
     CUSTOM_QUERY_FOLDER_NAME := CUSTOM_QUERY_FOLDER_NAME Sample.env;
     IsDbfsFile := IsDbfsFile Sample.env;
     g_ServerInfoMap := g_ServerInfoMap Sample.env;
     ExecuteQuery := λ _ _ _ _ _, (0, "ok");
     ExecuteCustomQuery := ExecuteCustomQuery Sample.env;
     listFiles := listFiles Sample.env;
     dmvNames := dmvNames Sample.env |}.

(** A backing store with a file that is not driver-owned, held open for
    reading and writing on descriptor 0. *)
Definition plain_store : World :=
  world_of
    (OpenLocalImpl Sample.env "/notes.txt" {| flags := O_RDWR; fh := 0 |}
       (Sample.world_of_files
          [ ("/tmp", Dir); ("/tmp/sqlserver", Dir);
            ("/tmp/sqlserver/notes.txt", Reg [x68; x69]) ]
          None)).

(** A backing store with a custom-query file of a server that is not in
    the registry, made by the user through the mount. *)
Definition stray_store : World :=
  Sample.world_of_files
    [ ("/tmp", Dir); ("/tmp/sqlserver", Dir); ("/tmp/sqlserver/srv2", Dir);
      ("/tmp/sqlserver/srv2/customQueries", Dir);
      ("/tmp/sqlserver/srv2/customQueries/q.sql", Reg [x41]) ]
    None.

(** That store with the file held open on descriptor 0. *)
Definition stray_held : World :=
  world_of (OpenLocalImpl Sample.env "/srv2/customQueries/q.sql" Sample.fi0
              stray_store).

(** The mounted store after the user has made a directory with the name of
    a source entry in the custom-query directory of the server. *)
Definition subdir_store : World :=
  world_of (MkdirLocalImpl Sample.env "/srv1/customQueries/a.sql"
              DEFAULT_PERMISSIONS Sample.mounted).

(** ** Two statements of the specification, as it words them *)



(** The loop of [ReaddirLocalImpl] on the entries a stream has left: the
    buffer after it, and the number of entries it has read from the stream
    (the one at which the filler made it stop included). *)
Fixpoint feed (filler : fuse_fill_dir_t) (buf : dirbuf) (l : list dirent)
    : dirbuf * nat :=
  match l with
  | [] => (buf, 0%nat)
  | de :: l' =>
      let r := filler buf (d_name de) (Z.shiftl (d_type de) 12) in
      if r.1 =? 0
      then let r' := feed filler r.2 l' in (r'.1, Datatypes.S r'.2)
      else (r.2, 1%nat)
  end.

(** A stream [n] entries further into the entries it has fetched. *)
Definition advanced (st : dirstream) (fs : gmap string node) (n : nat)
    : dirstream :=
  {| ds_path := ds_path st; ds_buf := Some (stream_buf st fs);
     ds_pos := ds_pos st + n |}.

(** The mounted store after [opendir] on the directory of the server. *)
Definition listing_store : World :=
  world_of (OpendirLocalImpl Sample.env "/srv1" Sample.fi0 Sample.mounted).

(** * Properties *)

(** Unfolding the monad. *)
Ltac run := unfold mbind, M_bind, mret, M_ret, die, deref, assert, at_ in *.

(** ** Splitting paths and wording queries *)

Example Split_ex : Split "/srv1/dm_os_hosts.json" "/" = ["srv1"; "dm_os_hosts.json"].
Proof. reflexivity. Qed.

Example dmv_query_ex :
  dmv_query "dm_os_hosts.json" =
  ("dm_os_hosts", TYPE_JSON,
   "SELECT * FROM [master].[sys].[dm_os_hosts] FOR JSON AUTO, ROOT('info')").
Proof. reflexivity. Qed.

Example dmv_query_ex2 :
  dmv_query "a.json.bak" =
  ("a", TYPE_JSON, "SELECT * FROM [master].[sys].[a] FOR JSON AUTO, ROOT('info')").
Proof. reflexivity. Qed.

(** ** Writing to a driver-owned file *)

(** C2.  A write to a path that the driver classifies as its own file (a
    metadata file or a custom-query file) returns [-EPERM] for every offset,
    size and buffer, with or without a live handle, and leaves the world as
    it was: no byte is written, no descriptor opened, no call made. *)
Theorem write_dbfs_file_denied (E : Env) (path : string) (buf : list byte)
    (size offset : Z) (fi : option fuse_file_info) (w : World) :
  IsDbfsFile E path = true →
  WriteLocalImpl E path buf size offset fi w = Ok (- EPERM) w.
Proof.
  intros Hdbfs. unfold WriteLocalImpl. rewrite Hdbfs. reflexivity.
Qed.

Lemma write_dbfs_file_denied_witness :
  IsDbfsFile Sample.env "/srv1/dm_os_hosts.json" = true ∧
  WriteLocalImpl Sample.env "/srv1/dm_os_hosts.json" [x41; x42] 2 0
    (Some {| flags := O_RDWR; fh := 3 |}) Sample.mounted
  = Ok (-1) Sample.mounted.
Proof.
  split; [reflexivity|].
  apply (write_dbfs_file_denied Sample.env "/srv1/dm_os_hosts.json").
  reflexivity.
Defined.

(** The custom-query files of the sample setting are classified the same
    way. *)
Example write_custom_query_file_denied :
  WriteLocalImpl Sample.env "/srv1/customQueries/old.sql" [x41] 1 7 None
    Sample.mounted
  = Ok (- EPERM) Sample.mounted.
Proof. reflexivity. Qed.

(** ** Calls without a live handle *)

(** C9.  With a null [fuse_file_info], [GetFileDescriptorForPath] takes the
    branch that opens the file and reads [fi->flags] through the null
    pointer: the helper, and with it [read], [fallocate] and every [write]
    that is not refused beforehand, ends in a null dereference before any
    descriptor is opened. *)
Theorem no_handle_null_dereference (E : Env) (path : string) (w : World) :
  GetFileDescriptorForPath E path None w = Crash NullDeref w ∧
  (∀ size offset, ReadLocalImpl E path size offset None w = Crash NullDeref w) ∧
  (∀ mode offset length,
     FallocateLocalImpl E path mode offset length None w = Crash NullDeref w) ∧
  (∀ buf size offset,
     WriteLocalImpl E path buf size offset None w =
     if IsDbfsFile E path then Ok (- EPERM) w else Crash NullDeref w).
Proof.
  repeat split; intros; try reflexivity.
  unfold WriteLocalImpl. destruct (IsDbfsFile E path); reflexivity.
Qed.

(** With a live handle the helper hands the stored descriptor back and
    nothing is opened or closed around the operation. *)
Lemma live_handle_reused (E : Env) (path : string) (fi : fuse_file_info)
    (fd : Z) (w : World) :
  GetFileDescriptorForPath E path (Some fi) w = Ok (to_int (fh fi)) w ∧
  CloseFileDesciptorIfOpened (Some fi) fd w = Ok tt w.
Proof. split; reflexivity. Qed.

(** ** Segments and the reserved folder name *)

Lemma append_String (a : ascii) (s1 s2 : string) :
  String a s1 +:+ s2 = String a (s1 +:+ s2).
Proof. reflexivity. Qed.

Lemma append_empty (s : string) : "" +:+ s = s.
Proof. reflexivity. Qed.

Lemma append_assoc (a b c : string) : (a +:+ b) +:+ c = a +:+ (b +:+ c).
Proof.
  induction a as [|x a IH]; [done|].
  by rewrite !append_String, IH.
Qed.

Lemma rev_app_append (s1 s2 : string) :
  String.rev_app s1 s2 = String.rev s1 +:+ s2.
Proof.
  revert s2. induction s1 as [|a s1 IH]; intros s2; [done|].
  unfold String.rev. simpl. rewrite (IH (String a s2)), (IH (String a "")).
  by rewrite append_assoc, append_String, append_empty.
Qed.

Lemma rev_String (a : ascii) (s : string) :
  String.rev (String a s) = String.rev s +:+ String a "".
Proof. unfold String.rev at 1. simpl. apply rev_app_append. Qed.

Lemma substring_0_append (a b : string) :
  String.substring 0 (String.length a) (a +:+ b) = a.
Proof.
  induction a as [|x a IH].
  - rewrite append_empty. by destruct b.
  - rewrite append_String. simpl. by rewrite IH.
Qed.

Lemma substring_skip_append (a b : string) (m n : nat) :
  String.substring (String.length a + m) n (a +:+ b) = String.substring m n b.
Proof.
  induction a as [|x a IH]; [done|].
  rewrite append_String. simpl. apply IH.
Qed.

(** Every piece is a substring of the text it was cut from. *)
Lemma pieces_substring (delim : ascii) (s cur p : string) :
  p ∈ pieces delim cur s →
  ∃ m, String.substring m (String.length p) (String.rev cur +:+ s) = p.
Proof.
  revert cur. induction s as [|a s IH]; intros cur Hin; simpl in Hin.
  - apply list_elem_of_singleton in Hin as ->. exists 0%nat.
    apply substring_0_append.
  - destruct (Ascii.eqb a delim).
    + apply elem_of_cons in Hin as [->|Hin].
      * exists 0%nat. apply substring_0_append.
      * destruct (IH "" Hin) as [m Hm]. rewrite append_empty in Hm.
        exists (String.length (String.rev cur +:+ String a "") + m)%nat.
        replace (String.rev cur +:+ String a s)
          with ((String.rev cur +:+ String a "") +:+ s)
          by (by rewrite append_assoc, append_String, append_empty).
        by rewrite substring_skip_append.
    + destruct (IH (String a cur) Hin) as [m Hm]. exists m.
      by rewrite rev_String, append_assoc, append_String, append_empty in Hm.
Qed.

(** A segment of a path occurs in it: the substring test of the driver
    accepts every path that has the reserved name as a segment. *)
Lemma segment_strstr (path segment : string) :
  segment ∈ Split path "/" → strstr path segment = true.
Proof.
  unfold Split. intros Hin. apply list_elem_of_In, List.filter_In in Hin.
  destruct Hin as [Hin Hne]. apply list_elem_of_In in Hin.
  destruct (pieces_substring "/" path "" segment Hin) as [m Hm].
  rewrite append_empty in Hm. unfold strstr.
  destruct (String.index 0 segment path) eqn:Hidx; [done|].
  exfalso. apply (String.index_correct3 0 m segment path Hidx); [|lia|done].
  by destruct segment.
Qed.

(** ** Descriptors *)

Lemma lowest_free_ge {A} (m : gmap Z A) (fuel : nat) (n : Z) :
  n ≤ lowest_free m n fuel.
Proof.
  revert n. induction fuel as [|k IH]; intros n; simpl; [lia|].
  destruct (m !! n); [|lia]. specialize (IH (n + 1)). lia.
Qed.

(** The search finds a free number when it may take as many steps as
    there are keys from [n] on. *)
Lemma lowest_free_fresh_from {A} (m : gmap Z A) (fuel : nat) (n : Z) :
  (size (filter (λ kv : Z * A, (n ≤ kv.1)%Z) m) ≤ fuel)%nat →
  m !! lowest_free m n fuel = None.
Proof.
  revert n. induction fuel as [|k IH]; intros n Hsize; simpl.
  - destruct (m !! n) as [v|] eqn:Hn; [|done].
    assert (filter (λ kv : Z * A, (n ≤ kv.1)%Z) m !! n = Some v) as Hin.
    { apply map_lookup_filter_Some. split; [done|simpl; lia]. }
    assert (size (filter (λ kv : Z * A, (n ≤ kv.1)%Z) m) = 0%nat) as H0 by lia.
    apply map_size_empty_inv in H0. rewrite H0 in Hin.
    by rewrite lookup_empty in Hin.
  - destruct (m !! n) as [v|] eqn:Hn; [|done].
    apply IH.
    assert (filter (λ kv : Z * A, (n ≤ kv.1)%Z) m =
            <[n := v]> (filter (λ kv : Z * A, (n + 1 ≤ kv.1)%Z) m)) as Heq.
    { apply map_eq. intros i. apply option_eq. intros x.
      rewrite map_lookup_filter_Some, lookup_insert_Some,
        map_lookup_filter_Some. simpl.
      split.
      - intros [Hi Hle]. destruct (decide (n = i)) as [->|Hne].
        + left. split; [done|]. congruence.
        + right. repeat split; [done|done|lia].
      - intros [[-> ->]|[Hne [Hi Hle]]]; split; auto; lia. }
    rewrite Heq in Hsize.
    rewrite map_size_insert_None in Hsize; [lia|].
    apply map_lookup_filter_None. right. intros x _. simpl. lia.
Qed.

Lemma lowest_free_fresh {A} (m : gmap Z A) (n : Z) :
  m !! lowest_free m n (size m) = None.
Proof.
  apply lowest_free_fresh_from.
  apply map_subseteq_size, map_filter_subseteq.
Qed.

Lemma next_fd_fresh (w : World) : fds w !! next_fd w = None.
Proof. apply lowest_free_fresh. Qed.

Lemma next_fd_nonneg (w : World) : (next_fd w =? -1) = false.
Proof.
  apply Z.eqb_neq. pose proof (lowest_free_ge (fds w) (size (fds w)) 0).
  unfold next_fd. lia.
Qed.

(** [open] on an existing regular file succeeds whatever the flags. *)
Lemma sys_open_reg (path : string) (flags : Z) (w : World) (data : list byte) :
  files w !! path = Some (Reg data) →
  sys_open path flags w = Ok (next_fd w) (after_open path flags w).
Proof. intros H. unfold sys_open. by rewrite H. Qed.

Lemma pwrite0_ret (limit : option nat) (data buf : list byte) :
  (pwrite0 limit data buf).1 = -1 ∨
  0 ≤ (pwrite0 limit data buf).1 ≤ Z.of_nat (length buf).
Proof.
  unfold pwrite0. pose proof (Nat.le_min_l (length buf)) as Hmin.
  assert (fits limit 0 (length buf) ≤ length buf)%nat as Hle.
  { unfold fits. destruct limit; [apply Hmin|lia]. }
  destruct (fits limit 0 (length buf)), buf; simpl in *; auto; right; lia.
Qed.

Lemma sys_pwrite_0_run (fd : Z) (buf : list byte) (w : World) (o : ofile)
    (data : list byte) :
  fds w !! fd = Some o → of_mode o ≠ O_RDONLY →
  files w !! of_path o = Some (Reg data) →
  ∃ w', sys_pwrite fd buf 0 w = Ok (pwrite0 (room w) data buf).1 w' ∧
        fds w' = fds w ∧ dirs w' = dirs w ∧ room w' = room w ∧
        trace w' = trace w ++ [EvPwrite fd buf 0 (pwrite0 (room w) data buf).1] ∧
        files w' !! of_path o = Some (Reg (pwrite0 (room w) data buf).2) ∧
        ((pwrite0 (room w) data buf).1 = -1 →
         files w' = files w ∧ errno w' = EFBIG).
Proof.
  intros Hfd Hmode Hfile. unfold sys_pwrite, pwrite0.
  rewrite Hfd. apply Z.eqb_neq in Hmode. rewrite Hmode. simpl.
  rewrite Hfile. change (Z.to_nat 0) with 0%nat.
  destruct (fits (room w) 0 (length buf)) as [|n] eqn:Hn, buf as [|b buf'];
    simpl; eexists; (split; [reflexivity|]); simpl;
    rewrite ?lookup_insert_eq; repeat split; auto; try discriminate; lia.
Qed.

(** What the truncate-to-zero step of [release] does: it never crashes, it
    empties the backing file when there is one and otherwise only sets
    [errno]; the descriptor table is not touched. *)
Lemma TruncateLocalImpl_0_run (E : Env) (path : string) (w : World) :
  ∃ t c, TruncateLocalImpl E path 0 w =
       Ok t (log (EvTruncate (CalculateDumpPath E path) 0 c)
               (match files w !! CalculateDumpPath E path with
                | Some (Reg _) =>
                    set_files (<[CalculateDumpPath E path := Reg []]> (files w)) w
                | Some Dir => set_errno EISDIR w
                | None => set_errno ENOENT w
                end))
       ∧ (c = 0 ↔ ∃ data, files w !! CalculateDumpPath E path = Some (Reg data))
       ∧ (t = 0 ↔ c = 0).
Proof.
  unfold TruncateLocalImpl, sys_truncate. run.
  destruct (files w !! CalculateDumpPath E path) as [[data|]|]; simpl.
  - unfold fits. destruct (room w); simpl; exists 0, 0; naive_solver.
  - exists (- EISDIR), (-1). split; [reflexivity|].
    split; split; first [discriminate | intros [? ?]; discriminate].
  - exists (- ENOENT), (-1). split; [reflexivity|].
    split; split; first [discriminate | intros [? ?]; discriminate].
Qed.

Lemma sys_close_run (fd : Z) (w : World) :
  ∃ c, sys_close fd w =
       Ok c (log (EvClose fd c)
               (match fds w !! fd with
                | Some _ => set_fds (delete fd (fds w)) w
                | None => set_errno EBADF w
                end))
       ∧ c = (match fds w !! fd with Some _ => 0 | None => -1 end).
Proof.
  unfold sys_close. destruct (fds w !! fd); eexists; split; reflexivity.
Qed.

(** ** Materializing a metadata file *)

Section Materialize.

Variable E : Env.
Variables (path servername filename : string) (rest : list string).
Hypothesis Htokens : Split path "/" = servername :: filename :: rest.

(** [GetDmvFileContent] on an existing backing file: it returns, the
    descriptor it opens is closed again, the query of [dmv_query] is sent,
    and the response is written only when the server reported success. *)
Lemma GetDmvFileContent_run (w : World) (data : list byte) :
  files w !! CalculateDumpPath E path = Some (Reg data) →
  let wr := pwrite0 (room w) data (dmv_response E servername filename) in
  ∃ err w',
    GetDmvFileContent E path w = Ok err w' ∧
    fds w' = fds w ∧ dirs w' = dirs w ∧ room w' = room w ∧
    (if dmv_status E servername filename =? 0
     then err = (if wr.1 =? -1 then - EFBIG else 0) ∧
          files w' !! CalculateDumpPath E path = Some (Reg wr.2) ∧
          trace w' = trace w ++
            [ EvOpen (CalculateDumpPath E path) O_WRONLY (next_fd w);
              dmv_event E servername filename;
              EvPwrite (next_fd w) (dmv_response E servername filename) 0 wr.1;
              EvClose (next_fd w) 0 ]
     else err = dmv_status E servername filename ∧ files w' = files w ∧
          trace w' = trace w ++
            [ EvOpen (CalculateDumpPath E path) O_WRONLY (next_fd w);
              dmv_event E servername filename;
              EvClose (next_fd w) 0 ]).
Proof.
  intros Hfile wr. subst wr. unfold GetDmvFileContent.
  unfold mbind, M_bind. rewrite (sys_open_reg _ _ _ _ Hfile).
  rewrite next_fd_nonneg. simpl negb. cbv iota.
  rewrite Htokens. simpl.
  unfold dmv_event, dmv_response, dmv_status, dmv_answer, dmv_text, dmv_type.
  destruct (dmv_query filename) as [[base ty] q].
  destruct (GetServerDetails E servername) as [[h u] p]. simpl.
  destruct (ExecuteQuery E q h u p ty) as [st resp]. simpl.
  set (dumpPath := CalculateDumpPath E path) in *.
  set (w1 := log _ (after_open _ _ _)).
  assert (fds w1 !! next_fd w =
          Some {| of_path := dumpPath; of_mode := Z.land O_WRONLY O_ACCMODE |})
    as Hfd by (simpl; apply lookup_insert_eq).
  destruct (st =? 0) eqn:Hst.
  - destruct (sys_pwrite_0_run (next_fd w) (list_byte_of_string resp) w1 _
                data Hfd)
      as (w2 & Hrun & Hfds & Hdirs & Hroom & Htrace & Hfiles & Hfail);
      [discriminate|exact Hfile|].
    simpl in Hfiles. rewrite Hrun. change (room w1) with (room w) in *.
    assert (fds w2 !! next_fd w =
            Some {| of_path := dumpPath;
                    of_mode := Z.land O_WRONLY O_ACCMODE |})
      as Hfd2 by (by rewrite Hfds).
    destruct ((pwrite0 (room w) data (list_byte_of_string resp)).1 =? -1)
      eqn:Hp.
    + unfold ReturnErrnoAndPrintError, sys_close. rewrite Hfd2. simpl.
      apply Z.eqb_eq in Hp. destruct (Hfail Hp) as [Hfs Herrno].
      do 2 eexists. split; [reflexivity|]. simpl.
      rewrite Hfds, Hdirs, Hroom, Htrace, Herrno.
      simpl. rewrite delete_insert_id by apply next_fd_fresh.
      rewrite <- !app_assoc. simpl. repeat split; auto.
    + unfold sys_close. simpl. rewrite Hfd2.
      apply Z.eqb_eq in Hst. subst st.
      do 2 eexists. split; [reflexivity|]. simpl.
      rewrite Hfds, Hdirs, Hroom, Htrace.
      simpl. rewrite delete_insert_id by apply next_fd_fresh.
      rewrite <- !app_assoc. simpl. repeat split; auto.
  - unfold sys_close. simpl. rewrite lookup_insert_eq.
    do 2 eexists. split; [reflexivity|]. simpl.
    rewrite delete_insert_id by apply next_fd_fresh.
    rewrite <- !app_assoc. simpl. apply Z.eqb_neq in Hst. repeat split; auto.
Qed.

Hypothesis Hdbfs : IsDbfsFile E path = true.
Hypothesis Hmark : strstr path (CUSTOM_QUERY_FOLDER_NAME E) = false.

(** [OpenLocalImpl] on a metadata file whose backing file exists. *)
Lemma OpenLocalImpl_metadata_run (fi : fuse_file_info) (w : World)
    (data : list byte) :
  files w !! CalculateDumpPath E path = Some (Reg data) →
  let dumpPath := CalculateDumpPath E path in
  let fd := next_fd w in
  let w1 := after_open dumpPath (flags fi) w in
  let fd2 := next_fd w1 in
  let response := dmv_response E servername filename in
  let wr := pwrite0 (room w) data response in
  ∃ err fi' w',
    OpenLocalImpl E path fi w = Ok (err, fi') w' ∧
    dirs w' = dirs w ∧ room w' = room w ∧
    (if dmv_status E servername filename =? 0
     then err = (if wr.1 =? -1 then - EFBIG else 0) ∧
          files w' !! dumpPath = Some (Reg wr.2) ∧
          trace w' = trace w ++
            [ EvOpen dumpPath (flags fi) fd;
              EvOpen dumpPath O_WRONLY fd2;
              dmv_event E servername filename;
              EvPwrite fd2 response 0 wr.1;
              EvClose fd2 0 ] ++
            (if wr.1 =? -1 then [EvClose fd 0] else []) ∧
          (if wr.1 =? -1
           then fds w' = fds w ∧ fi' = set_fh (to_uint64 (-1)) fi
           else fds w' = fds w1 ∧ fi' = set_fh (to_uint64 fd) fi)
     else err = dmv_status E servername filename ∧ files w' = files w ∧
          trace w' = trace w ++
            [ EvOpen dumpPath (flags fi) fd;
              EvOpen dumpPath O_WRONLY fd2;
              dmv_event E servername filename;
              EvClose fd2 0;
              EvClose fd 0 ] ∧
          fds w' = fds w ∧ fi' = set_fh (to_uint64 (-1)) fi).
Proof.
  intros Hfile dumpPath fd w1 fd2 response wr. unfold OpenLocalImpl.
  unfold mbind at 1, M_bind at 1. rewrite (sys_open_reg _ _ _ _ Hfile).
  change (after_open (CalculateDumpPath E path) (flags fi) w) with w1.
  change (next_fd w) with fd. change (CalculateDumpPath E path) with dumpPath.
  assert ((fd =? -1) = false) as Hfd by apply next_fd_nonneg.
  assert (files w1 !! dumpPath = Some (Reg data)) as Hfile1 by exact Hfile.
  assert (fds w1 !! fd = Some {| of_path := dumpPath;
            of_mode := Z.land (flags fi) O_ACCMODE |}) as Hfd1
    by apply lookup_insert_eq.
  assert (delete fd (fds w1) = fds w) as Hdel
    by (apply delete_insert_id, next_fd_fresh).
  assert (room w1 = room w) as Hroom1 by reflexivity.
  assert (dirs w1 = dirs w) as Hdirs1 by reflexivity.
  assert (files w1 = files w) as Hfiles1 by reflexivity.
  assert (trace w1 = trace w ++ [EvOpen dumpPath (flags fi) fd]) as Htrace1
    by reflexivity.
  destruct (GetDmvFileContent_run w1 data Hfile1)
    as (err & w2 & Hrun & Hfds & Hdirs & Hroom & Hcases).
  fold dumpPath in Hrun, Hcases. fold fd2 in Hcases.
  rewrite Hroom1 in Hcases. fold response in Hcases. fold wr in Hcases.
  clearbody w1 fd dumpPath.
  unfold mbind at 1, M_bind at 1. rewrite Hfd. cbv beta iota.
  unfold mret at 1, M_ret at 1. cbv beta iota.
  change (0 =? 0) with true. cbv beta iota. unfold mbind at 1, M_bind at 1.
  rewrite Hdbfs, Hmark, Hrun. change (negb false) with true.
  rewrite andb_true_r.
  destruct (dmv_status E servername filename =? 0) eqn:Hst.
  - destruct Hcases as (Herr & Hfiles & Htrace).
    destruct (wr.1 =? -1) eqn:Hwr; subst err.
    + change (negb (- EFBIG =? 0)) with true. cbv iota.
      unfold mbind, M_bind, sys_close. rewrite Hfds, Hfd1.
      do 3 eexists. split; [reflexivity|].
      cbn [log set_fds dirs room trace fds files].
      rewrite Hdirs, Hroom, Htrace, Hdel, Htrace1, Hroom1, Hdirs1.
      rewrite <- !app_assoc. simpl. repeat split; auto.
    + change (negb (0 =? 0)) with false. cbv iota.
      do 3 eexists. split; [reflexivity|].
      rewrite Hdirs, Hroom, Htrace, Htrace1, Hroom1, Hdirs1.
      rewrite <- !app_assoc. simpl. repeat split; auto.
  - destruct Hcases as (Herr & Hfiles & Htrace). subst err.
    rewrite Hst. change (negb false) with true. cbv iota.
    unfold mbind, M_bind, sys_close. rewrite Hfds, Hfd1.
    do 3 eexists. split; [reflexivity|].
    cbn [log set_fds dirs room trace fds files].
    rewrite Hdirs, Hroom, Htrace, Hdel, Hfiles, Htrace1, Hroom1, Hdirs1,
      Hfiles1.
    rewrite <- !app_assoc. simpl. repeat split; auto.
Qed.

End Materialize.

Lemma queries_app (t1 t2 : list event) :
  queries (t1 ++ t2) = (queries t1 + queries t2)%nat.
Proof. unfold queries. by rewrite List.filter_app, length_app. Qed.

(** [OpenLocalImpl] on a driver-owned path whose backing object is not a
    regular file: the call fails before any query is sent, and no
    descriptor stays open. *)
Lemma OpenLocalImpl_metadata_no_file (E : Env) (path : string)
    (fi : fuse_file_info) (w : World) :
  IsDbfsFile E path = true →
  strstr path (CUSTOM_QUERY_FOLDER_NAME E) = false →
  (∀ data, files w !! CalculateDumpPath E path ≠ Some (Reg data)) →
  ∃ err fi' w',
    OpenLocalImpl E path fi w = Ok (err, fi') w' ∧
    err ≠ 0 ∧ fds w' = fds w ∧ files w' = files w ∧
    queries (trace w') = queries (trace w).
Proof.
  intros Hdbfs Hmark Hnone. unfold OpenLocalImpl, sys_open.
  unfold mbind at 1, M_bind at 1.
  destruct (files w !! CalculateDumpPath E path) as [[data|]|] eqn:Hf.
  - by destruct (Hnone data).
  - destruct (Z.land (flags fi) O_ACCMODE =? O_RDONLY).
    + fold (after_open (CalculateDumpPath E path) (flags fi) w).
      unfold mbind at 1, M_bind at 1. rewrite next_fd_nonneg.
      cbv beta iota. unfold mret at 1, M_ret at 1. cbv beta iota.
      change (0 =? 0) with true. cbv beta iota.
      unfold mbind at 1, M_bind at 1. rewrite Hdbfs, Hmark.
      unfold GetDmvFileContent, sys_open. unfold mbind at 1, M_bind at 1.
      change (files (after_open (CalculateDumpPath E path) (flags fi) w))
        with (files w).
      rewrite Hf. simpl.
      unfold mbind, M_bind, sys_close. simpl. rewrite lookup_insert_eq.
      do 3 eexists. split; [reflexivity|]. simpl.
      rewrite delete_insert_id by apply next_fd_fresh.
      rewrite <- !app_assoc, queries_app. simpl.
      repeat split; auto; try discriminate; lia.
    + simpl. do 3 eexists. split; [reflexivity|]. simpl.
      rewrite queries_app. simpl.
      repeat split; auto; try discriminate; lia.
  - simpl. do 3 eexists. split; [reflexivity|]. simpl.
    rewrite queries_app. simpl.
    repeat split; auto; try discriminate; lia.
Qed.

(** [OpenLocalImpl] on a custom-query file whose backing file exists: the
    status of the collaborator is dropped and the call returns 0. *)
Lemma OpenLocalImpl_custom_run (E : Env) (path servername filename : string)
    (rest : list string) (fi : fuse_file_info) (w : World)
    (data : list byte) :
  IsDbfsFile E path = true →
  Split path "/" =
    servername :: CUSTOM_QUERY_FOLDER_NAME E :: filename :: rest →
  files w !! CalculateDumpPath E path = Some (Reg data) →
  ∃ w',
    OpenLocalImpl E path fi w = Ok (0, set_fh (to_uint64 (next_fd w)) fi) w' ∧
    trace w' = trace w ++
      EvOpen (CalculateDumpPath E path) (flags fi) (next_fd w) ::
      match GetServerInfo E servername with
      | Some si =>
          if nonempty (m_customQueriesPath si)
          then [ EvExecuteCustomQuery
                   (m_customQueriesPath si +:+ "/" +:+ filename)
                   (CalculateDumpPath E path)
                   (m_hostname si) (m_username si) (m_password si)
                   (ExecuteCustomQuery E
                      (m_customQueriesPath si +:+ "/" +:+ filename)
                      (CalculateDumpPath E path)
                      (m_hostname si) (m_username si) (m_password si)).1 ]
          else []
      | None => []
      end.
Proof.
  intros Hdbfs Htokens Hfile.
  assert (strstr path (CUSTOM_QUERY_FOLDER_NAME E) = true) as Hmark.
  { apply segment_strstr. rewrite Htokens.
    apply list_elem_of_further, list_elem_of_here. }
  unfold OpenLocalImpl.
  unfold mbind at 1, M_bind at 1. rewrite (sys_open_reg _ _ _ _ Hfile).
  unfold mbind at 1, M_bind at 1. rewrite next_fd_nonneg.
  cbv beta iota. unfold mret at 1, M_ret at 1. cbv beta iota.
  change (0 =? 0) with true. cbv beta iota.
  unfold mbind at 1, M_bind at 1. rewrite Hdbfs.
  rewrite Hmark, Htokens. run. simpl. rewrite String.eqb_refl. simpl.
  destruct (GetServerInfo E servername) as [si|]; simpl.
  - destruct (nonempty (m_customQueriesPath si)); simpl.
    + unfold call_ExecuteCustomQuery. simpl.
      eexists. split; [reflexivity|]. simpl.
      destruct (ExecuteCustomQuery E _ _ _ _ _) as [st [text|]]; simpl;
        rewrite ?Hfile; simpl; by rewrite <- app_assoc.
    + eexists. split; reflexivity.
  - eexists. split; reflexivity.
Qed.

(** ** Release *)

(** C10.  The value [release] returns is the one of the final [close] of
    the held descriptor, whatever the path and whatever became of the
    truncation: for a driver-owned path [truncate] is called, it fails
    (returns -1, and [TruncateLocalImpl] the negated errno) exactly when the
    backing path is no regular file, and its outcome is only compared with
    -1 and then overwritten. *)
Theorem release_result_is_close_result (E : Env) (path : string)
    (fi : fuse_file_info) (w : World) :
  ∃ w',
    ReleaseLocalImpl E path fi w = Ok (close_result w (to_int (fh fi))) w' ∧
    if IsDbfsFile E path then
      ∃ c, EvTruncate (CalculateDumpPath E path) 0 c ∈ trace w' ∧
           (c = 0 ↔ ∃ data,
                      files w !! CalculateDumpPath E path = Some (Reg data))
    else True.
Proof.
  unfold ReleaseLocalImpl, close_result. run.
  destruct (IsDbfsFile E path); cycle 1.
  { destruct (sys_close_run (to_int (fh fi)) w) as (r & Hr & Hc); rewrite Hr.
    destruct (fds w !! to_int (fh fi)); subst r; eexists;
      split; reflexivity || exact I. }
  destruct (TruncateLocalImpl_0_run E path w) as (t & c & Ht & Hc & _).
  rewrite Ht.
  set (w1 := log _ _).
  assert (fds w1 = fds w) as Hfds1
    by (unfold w1; destruct (files w !! _) as [[|]|]; reflexivity).
  assert (trace w1 = trace w ++ [EvTruncate (CalculateDumpPath E path) 0 c])
    as Htr1 by (unfold w1; destruct (files w !! _) as [[|]|]; reflexivity).
  assert (∀ f : Z → M Z,
            match (if t =? -1 then ReturnErrnoAndPrintError else Ok t) w1 with
            | Ok a w'0 => f a w'0
            | Crash c0 w'0 => Crash c0 w'0
            end = f (if t =? -1 then - errno w1 else t) w1) as Hskip.
  { intros f. by destruct (t =? -1). }
  rewrite Hskip. clear Hskip.
  destruct (sys_close_run (to_int (fh fi)) w1) as (r & Hr & Hrc). rewrite Hr.
  rewrite Hfds1 in Hrc |- *.
  assert (∀ w2, trace w2 = trace w1 ++ [EvClose (to_int (fh fi)) r] →
                EvTruncate (CalculateDumpPath E path) 0 c ∈ trace w2) as Hin.
  { intros w2 ->. rewrite Htr1. apply elem_of_app. left.
    apply elem_of_app. right. apply list_elem_of_here. }
  destruct (fds w !! to_int (fh fi)); subst r; simpl;
    (eexists; split; [reflexivity|]); exists c; (split; [|exact Hc]);
    apply Hin; reflexivity.
Qed.

(** A metadata file unlinked while it is open: the truncation of [release]
    fails with [ENOENT], and [release] still returns 0. *)
Example release_hides_truncate_failure :
  let fi0 := {| flags := O_RDONLY; fh := 0 |} in
  let path := "/srv1/dm_os_hosts" in
  let run :=
    r ← OpenLocalImpl Sample.env path fi0;
    UnlinkLocalImpl Sample.env path;;
    x ← ReleaseLocalImpl Sample.env path r.2;
    mret (r.1, x) in
  value_of (run Sample.mounted) = Some (0, 0) ∧
  last (trace (world_of (run Sample.mounted))) = Some (EvClose 0 0) ∧
  EvTruncate "/tmp/sqlserver/srv1/dm_os_hosts" 0 (-1)
    ∈ trace (world_of (run Sample.mounted)).
Proof.
  vm_compute. repeat split.
  repeat first [apply list_elem_of_here | apply list_elem_of_further].
Qed.

Lemma is_query_dmv_event (E : Env) (servername filename : string) :
  is_query (dmv_event E servername filename) = true.
Proof.
  unfold dmv_event. by destruct (GetServerDetails E servername) as [[? ?] ?].
Qed.

(** Every open of a metadata file whose backing file exists sends its
    query once: nothing is served from an earlier open. *)
Lemma open_metadata_queries_once (E : Env) (path servername filename : string)
    (rest : list string) (fi : fuse_file_info) (w : World)
    (data : list byte) :
  Split path "/" = servername :: filename :: rest →
  IsDbfsFile E path = true →
  strstr path (CUSTOM_QUERY_FOLDER_NAME E) = false →
  files w !! CalculateDumpPath E path = Some (Reg data) →
  ∃ r w', OpenLocalImpl E path fi w = Ok r w' ∧
          dmv_event E servername filename ∈ trace w' ∧
          queries (trace w') = S (queries (trace w)).
Proof.
  intros Htokens Hdbfs Hmark Hfile.
  destruct (OpenLocalImpl_metadata_run E path servername filename rest
              Htokens Hdbfs Hmark fi w data Hfile)
    as (err & fi' & w' & Hrun & _ & _ & Hcases).
  exists (err, fi'), w'. split; [exact Hrun|].
  destruct (dmv_status E servername filename =? 0).
  - destruct Hcases as (_ & _ & Htrace & _). rewrite Htrace.
    split.
    + apply elem_of_app. right. apply elem_of_app. left.
      do 2 apply list_elem_of_further. apply list_elem_of_here.
    + rewrite !queries_app. unfold queries at 2. simpl.
      rewrite is_query_dmv_event. simpl.
      destruct (_ =? -1); unfold queries; simpl; lia.
  - destruct Hcases as (_ & _ & Htrace & _). rewrite Htrace.
    split.
    + apply elem_of_app. right.
      do 2 apply list_elem_of_further. apply list_elem_of_here.
    + rewrite queries_app. unfold queries at 2. simpl.
      rewrite is_query_dmv_event. unfold queries. simpl. lia.
Qed.




(** The run behind it: the path is a custom-query file, the release and the
    open both return 0, the file is empty in between, and the trace of the
    two calls holds no call of a collaborator. *)
Example reopen_without_source_run :
  let path := "/srv2/customQueries/q.sql" in
  let w1 := world_of (ReleaseLocalImpl Sample.env path Sample.fi0 stray_held) in
  let w2 := world_of (OpenLocalImpl Sample.env path Sample.fi0 w1) in
  classify "customQueries" path = CustomQueryFile ∧
  IsDbfsFile Sample.env path = true ∧
  GetServerInfo Sample.env "srv2" = None ∧
  files stray_held !! CalculateDumpPath Sample.env path = Some (Reg [x41]) ∧
  value_of (ReleaseLocalImpl Sample.env path Sample.fi0 stray_held) = Some 0 ∧
  files w1 !! CalculateDumpPath Sample.env path = Some (Reg []) ∧
  value_of (OpenLocalImpl Sample.env path Sample.fi0 w1)
    = Some (0, Sample.fi0) ∧
  drop (length (trace stray_held)) (trace w2) =
    [ EvTruncate "/tmp/sqlserver/srv2/customQueries/q.sql" 0 0;
      EvClose 0 0;
      EvOpen "/tmp/sqlserver/srv2/customQueries/q.sql" O_RDONLY 0 ].
Proof. vm_compute. repeat split. Qed.

(** ** Opening a metadata file *)

Lemma pwrite0_written (limit : option nat) (data buf : list byte) :
  (pwrite0 limit data buf).1 ≠ -1 →
  (pwrite0 limit data buf).2 =
  write_at data 0 (take (fits limit 0 (length buf)) buf).
Proof.
  unfold pwrite0. destruct (fits limit 0 (length buf)), buf; simpl; congruence.
Qed.

(** Without a size limit the write takes the whole buffer. *)
Lemma pwrite0_unlimited (data buf : list byte) :
  pwrite0 None data buf =
  (Z.of_nat (length buf), buf ++ drop (length buf) data).
Proof.
  unfold pwrite0, fits, write_at. destruct buf as [|b buf]; simpl.
  - by rewrite drop_0.
  - by rewrite firstn_all.
Qed.

(** C5, as the code has it.  On a metadata file: when the query was sent
    and the server reported a failure, [open] returns that status, both
    descriptors it opened are closed again (the descriptor table is as
    before, the last call is the [close] of the descriptor opened first),
    the handle is set to -1 and the backing files are untouched.  [open]
    returns 0 only if the backing file exists, the server reported success
    and [pwrite] did not return -1; the file then holds, from offset 0, as
    much of the response as [pwrite] accepted. *)
Theorem open_metadata_fails_when_query_fails (E : Env)
    (path servername filename : string) (rest : list string)
    (fi : fuse_file_info) (w : World) :
  Split path "/" = servername :: filename :: rest →
  IsDbfsFile E path = true →
  strstr path (CUSTOM_QUERY_FOLDER_NAME E) = false →
  let dumpPath := CalculateDumpPath E path in
  let status := dmv_status E servername filename in
  let response := dmv_response E servername filename in
  ∃ err fi' w',
    OpenLocalImpl E path fi w = Ok (err, fi') w' ∧
    (∀ data, files w !! dumpPath = Some (Reg data) → status ≠ 0 →
       err = status ∧ fds w' = fds w ∧ fi' = set_fh (to_uint64 (-1)) fi ∧
       files w' = files w ∧
       dmv_event E servername filename ∈ trace w' ∧
       last (trace w') = Some (EvClose (next_fd w) 0)) ∧
    (err = 0 →
       ∃ data, files w !! dumpPath = Some (Reg data) ∧ status = 0 ∧
         (pwrite0 (room w) data response).1 ≠ -1 ∧
         files w' !! dumpPath =
           Some (Reg (write_at data 0
                        (take (fits (room w) 0 (length response)) response)))).
Proof.
  intros Htokens Hdbfs Hmark dumpPath status response.
  destruct (files w !! dumpPath) as [[data|]|] eqn:Hfile.
  - destruct (OpenLocalImpl_metadata_run E path servername filename rest
                Htokens Hdbfs Hmark fi w data Hfile)
      as (err & fi' & w' & Hrun & _ & _ & Hcases).
    cbv zeta in Hcases. fold dumpPath status response in Hcases.
    exists err, fi', w'. split; [exact Hrun|].
    destruct (status =? 0) eqn:Hst.
    + destruct Hcases as (Herr & Hfiles & _ & _). split.
      * intros data' _ Hne. apply Z.eqb_eq in Hst. contradiction.
      * intros H0. exists data. split; [reflexivity|].
        apply Z.eqb_eq in Hst. split; [exact Hst|].
        assert ((pwrite0 (room w) data response).1 ≠ -1) as Hok.
        { intros Hbad. rewrite Hbad in Herr. simpl in Herr.
          rewrite Herr in H0. discriminate. }
        split; [exact Hok|]. rewrite Hfiles. by rewrite pwrite0_written.
    + destruct Hcases as (Herr & Hfiles & Htrace & Hfds & Hfi). split.
      * intros data' _ _. repeat split; auto.
        -- rewrite Htrace. apply elem_of_app. right.
           do 2 apply list_elem_of_further. apply list_elem_of_here.
        -- rewrite Htrace.
           change [EvOpen dumpPath (flags fi) (next_fd w);
                   EvOpen dumpPath O_WRONLY
                     (next_fd (after_open dumpPath (flags fi) w));
                   dmv_event E servername filename;
                   EvClose (next_fd (after_open dumpPath (flags fi) w)) 0;
                   EvClose (next_fd w) 0]
             with ([EvOpen dumpPath (flags fi) (next_fd w);
                    EvOpen dumpPath O_WRONLY
                      (next_fd (after_open dumpPath (flags fi) w));
                    dmv_event E servername filename;
                    EvClose (next_fd (after_open dumpPath (flags fi) w)) 0]
                   ++ [EvClose (next_fd w) 0]).
           rewrite app_assoc. apply last_snoc.
      * intros H0. apply Z.eqb_neq in Hst. congruence.
  - destruct (OpenLocalImpl_metadata_no_file E path fi w Hdbfs Hmark)
      as (err & fi' & w' & Hrun & Hne & _).
    { intros data. fold dumpPath. rewrite Hfile. discriminate. }
    exists err, fi', w'. split; [exact Hrun|]. split.
    + intros data Hbad. discriminate.
    + intros H0. contradiction.
  - destruct (OpenLocalImpl_metadata_no_file E path fi w Hdbfs Hmark)
      as (err & fi' & w' & Hrun & Hne & _).
    { intros data. fold dumpPath. rewrite Hfile. discriminate. }
    exists err, fi', w'. split; [exact Hrun|]. split.
    + intros data Hbad. discriminate.
    + intros H0. contradiction.
Qed.

Lemma open_metadata_fails_when_query_fails_witness :
  ∃ fi' w',
    OpenLocalImpl Sample.env_failing "/srv1/dm_os_hosts" Sample.fi0
      Sample.mounted = Ok (-1, fi') w' ∧
    fds w' = fds Sample.mounted ∧ fh fi' = 2 ^ 64 - 1 ∧
    last (trace w') = Some (EvClose 0 0).
Proof.
  pose proof (open_metadata_fails_when_query_fails Sample.env_failing
                "/srv1/dm_os_hosts" "srv1" "dm_os_hosts" [] Sample.fi0
                Sample.mounted eq_refl eq_refl eq_refl) as H.
  cbv zeta in H. destruct H as (err & fi' & w' & Hrun & Hfail & _).
  destruct (Hfail [] eq_refl) as (Herr & Hfds & Hfi & _ & _ & Hlast);
    [discriminate|].
  exists fi', w'. rewrite Herr in Hrun. split; [exact Hrun|].
  split; [exact Hfds|]. split; [by rewrite Hfi|exact Hlast].
Defined.

(** C5 as stated fails where the backing store has room for part
    of the response only: [pwrite] writes two of the four bytes and returns
    2, which is not -1, and [open] returns 0. *)
Lemma open_succeeds_after_short_write :
  ¬ open_success_writes_full_response Sample.env "/srv1/dm_os_hosts"
      "srv1" "dm_os_hosts" Sample.fi0 Sample.cramped.
Proof.
  intros Hclaim.
  assert (OpenLocalImpl Sample.env "/srv1/dm_os_hosts" Sample.fi0
            Sample.cramped =
          Ok (0, Sample.fi0)
             (world_of (OpenLocalImpl Sample.env "/srv1/dm_os_hosts"
                          Sample.fi0 Sample.cramped))) as Hrun
    by (vm_compute; reflexivity).
  destruct (Hclaim _ _ Hrun) as [tail Htail].
  vm_compute in Htail. discriminate Htail.
Qed.

(** The query a metadata open sends is the one [dmv_query] computes from
    segment 1 of the path. *)
Lemma open_metadata_sends_dmv_query (E : Env)
    (path servername filename : string) (rest : list string)
    (fi : fuse_file_info) (w : World) (data : list byte) :
  Split path "/" = servername :: filename :: rest →
  IsDbfsFile E path = true →
  strstr path (CUSTOM_QUERY_FOLDER_NAME E) = false →
  files w !! CalculateDumpPath E path = Some (Reg data) →
  ∃ hostname username password status,
    EvExecuteQuery (dmv_text filename) hostname username password
      (dmv_type filename) status
    ∈ trace (world_of (OpenLocalImpl E path fi w)).
Proof.
  intros Htokens Hdbfs Hmark Hfile.
  destruct (open_metadata_queries_once E path servername filename rest fi w
              data Htokens Hdbfs Hmark Hfile) as (r & w' & Hrun & Hin & _).
  rewrite Hrun. simpl. unfold dmv_event in Hin.
  destruct (GetServerDetails E servername) as [[h u] p]. eauto.
Qed.

(** Where [.json] occurs in the name only as its trailing suffix, or not at
    all, the query is the one the specification words. *)
Lemma dmv_query_agrees (filename : string) :
  (∀ k, find filename ".json" = Some k →
        (k + 5 = String.length filename)%nat) →
  dmv_query filename =
  (spec_base filename, spec_format filename, spec_query filename).
Proof.
  intros Htrail. unfold dmv_query, spec_query, spec_format, spec_base.
  destruct (find filename ".json") as [k|] eqn:Hfind.
  - specialize (Htrail k eq_refl).
    assert (has_json_suffix filename = true) as ->.
    { unfold has_json_suffix. apply andb_true_iff. split.
      - apply Nat.leb_le. lia.
      - apply String.eqb_eq.
        replace (String.length filename - 5)%nat with k by lia.
        apply (String.index_correct1 0 k ".json" filename Hfind). }
    replace (String.length filename - 5)%nat with k by lia. reflexivity.
  - assert (has_json_suffix filename = false) as ->; [|reflexivity].
    unfold has_json_suffix. apply andb_false_iff. right.
    apply String.eqb_neq.
    apply (String.index_correct3 0 _ ".json" filename Hfind);
      [discriminate|lia].
Qed.

(** C1.  The name is cut at the first occurrence of [.json], wherever it
    is: for the file [dm_os_hosts.json.bak], whose name has no trailing
    [.json], the query sent selects from [dm_os_hosts] in JSON form, where
    the specification has the tabular query on [dm_os_hosts.json.bak]. *)
Theorem open_cuts_name_at_first_json :
  let path := "/srv1/dm_os_hosts.json.bak" in
  let r := OpenLocalImpl Sample.env path Sample.fi0 Sample.mounted in
  Split path "/" = ["srv1"; "dm_os_hosts.json.bak"] ∧
  classify "customQueries" path = MetadataFile ∧
  value_of r = Some (0, Sample.fi0) ∧
  List.filter is_query (trace (world_of r)) =
    [ EvExecuteQuery
        "SELECT * FROM [master].[sys].[dm_os_hosts] FOR JSON AUTO, ROOT('info')"
        "db1.example.org" "sa" "pw" TYPE_JSON 0 ] ∧
  spec_format "dm_os_hosts.json.bak" = TYPE_TSV ∧
  spec_query "dm_os_hosts.json.bak" =
    "SELECT * FROM [master].[sys].[dm_os_hosts.json.bak]".
Proof. vm_compute. repeat split. Qed.

(** A name with [.json] twice: the suffix is stripped together with what
    precedes it from the first occurrence on. *)
Example dmv_query_double_suffix :
  dmv_query "dm_os_hosts.json.json" =
    ("dm_os_hosts", TYPE_JSON,
     "SELECT * FROM [master].[sys].[dm_os_hosts] FOR JSON AUTO, ROOT('info')") ∧
  spec_base "dm_os_hosts.json.json" = "dm_os_hosts.json".
Proof. split; reflexivity. Qed.

(** ** Opening a custom-query file *)

(** C6.  The custom-query collaborator fails (status -1) and [open]
    returns 0 with the descriptor left open: the status of
    [ExecuteCustomQuery] is not assigned to [error]. *)
Theorem open_custom_query_ignores_failure :
  let path := "/srv1/customQueries/old.sql" in
  let r := OpenLocalImpl Sample.env_failing path Sample.fi0 Sample.mounted in
  classify "customQueries" path = CustomQueryFile ∧
  m_customQueriesPath Sample.srv1 = "/home/u/queries" ∧
  value_of r = Some (0, {| flags := O_RDONLY; fh := 0 |}) ∧
  trace (world_of r) =
    [ EvOpen "/tmp/sqlserver/srv1/customQueries/old.sql" O_RDONLY 0;
      EvExecuteCustomQuery "/home/u/queries/old.sql"
        "/tmp/sqlserver/srv1/customQueries/old.sql"
        "db1.example.org" "sa" "pw" (-1) ] ∧
  is_Some (fds (world_of r) !! 0).
Proof. vm_compute. repeat split. eexists. reflexivity. Qed.

(** ** Mount start *)

Lemma for_each_ok {A} (f : A → M unit) (l : list A) (w : World) :
  (∀ x w, ∃ w', f x w = Ok tt w') → ∃ w', for_each l f w = Ok tt w'.
Proof.
  intros Hf. revert w. induction l as [|x l IH]; intros w; simpl.
  - by eexists.
  - run. destruct (Hf x w) as [w1 ->]. apply IH.
Qed.

Lemma sys_mkdir_ok (path : string) (mode : Z) (w : World) :
  ∃ r w', sys_mkdir path mode w = Ok r w'.
Proof.
  unfold sys_mkdir. destruct (files w !! path); [by do 2 eexists|].
  destruct (is_dir _ _); by do 2 eexists.
Qed.

Lemma sys_create_ok (dir name : string) (w : World) :
  ∃ r w', sys_create dir name w = Ok r w'.
Proof.
  unfold sys_create. destruct (files w !! dir) as [[|]|]; try by do 2 eexists.
  destruct (files w !! _) as [[|]|]; by do 2 eexists.
Qed.

Lemma CreateDbfsFiles_ok (E : Env) (servername hostname username
    password : string) (version : Z) (w : World) :
  ∃ w', CreateDbfsFiles E servername hostname username password version w
        = Ok tt w'.
Proof.
  unfold CreateDbfsFiles. run.
  destruct (sys_mkdir_ok (CalculateDumpPath E ("/" +:+ servername))
              DEFAULT_PERMISSIONS w) as (r & w1 & ->).
  apply for_each_ok. intros name w2.
  destruct (sys_create_ok (CalculateDumpPath E ("/" +:+ servername)) name w2)
    as (r' & w3 & ->). by eexists.
Qed.

(** [InitializeSQLFs] kills the process exactly when [mkdir] of the backing
    root fails, whatever the reason: the root exists already, or its parent
    is missing. *)
Lemma InitializeSQLFs_killed_iff (E : Env) (w : World) :
  crash_of (InitializeSQLFs E w) = Some Killed ↔
  is_Some (files w !! m_dumpPath E) ∨
  is_dir (files w) (dirname (m_dumpPath E)) = false.
Proof.
  unfold InitializeSQLFs, sys_mkdir. run.
  destruct (files w !! m_dumpPath E) as [v|] eqn:Hroot; simpl.
  - split; [intros _; left; by eexists|reflexivity].
  - destruct (is_dir (files w) (dirname (m_dumpPath E))) eqn:Hparent; simpl.
    + match goal with |- context [for_each ?l ?f ?w1] =>
        destruct (for_each_ok f l w1) as [w' ->]
      end.
      { intros [name entry] w2. apply CreateDbfsFiles_ok. }
      simpl. split; [discriminate|].
      intros [[v Hv]|Hbad]; discriminate.
    + split; [intros _; by right|reflexivity].
Qed.

(** C8.  The backing root exists when the mount starts: [mkdir] fails with
    [EEXIST], the result is compared with -1 only, and [KillSelf] ends the
    process before any placeholder is created. *)
Theorem init_kills_when_backing_root_exists :
  let r := InitializeSQLFs Sample.env Sample.mounted in
  files Sample.mounted !! m_dumpPath Sample.env = Some Dir ∧
  crash_of r = Some Killed ∧
  errno (world_of r) = EEXIST ∧
  trace (world_of r) =
    [ EvMkdir "/tmp/sqlserver" DEFAULT_PERMISSIONS (-1); EvKillSelf ].
Proof. vm_compute. repeat split. Qed.

(** On a host where only the parent of the backing root exists, startup
    goes through and creates the placeholders. *)
Example init_creates_backing_root :
  let w := Sample.world_of_files [("/tmp", Dir)] None in
  let r := InitializeSQLFs Sample.env w in
  value_of r = Some tt ∧
  files (world_of r) !! "/tmp/sqlserver" = Some Dir ∧
  files (world_of r) !! "/tmp/sqlserver/srv1/dm_os_hosts.json" = Some (Reg []).
Proof. vm_compute. repeat split. Qed.

(** ** The reserved folder name as a substring *)

(** The converse fails: the reserved name occurs in paths of which it is
    no segment. *)
Example strstr_not_segment :
  strstr "/srv1/mycustomQueries" "customQueries" = true ∧
  Split "/srv1/mycustomQueries" "/" = ["srv1"; "mycustomQueries"].
Proof. split; reflexivity. Qed.

(** C7.  The driver tests for the reserved folder name with [strstr] on
    the whole path.  A directory whose name only contains it has its
    regular files deleted by [opendir] before the assertion on segment 1
    stops the process; a metadata file whose name only contains it is taken
    for a custom-query file by [open], which reads [tokens[2]] past the end
    and sends no query. *)
Theorem substring_taken_for_custom_query_path :
  let dir := "/srv1/mycustomQueries" in
  let file := "/srv1/customQueries_stats" in
  let r1 := OpendirLocalImpl Sample.env dir Sample.fi0 Sample.mounted in
  let r2 := OpenLocalImpl Sample.env file Sample.fi0 Sample.mounted in
  Split dir "/" = ["srv1"; "mycustomQueries"] ∧
  files Sample.mounted !! "/tmp/sqlserver/srv1/mycustomQueries/keep.txt"
    = Some (Reg [x41]) ∧
  crash_of r1 = Some AssertFailed ∧
  files (world_of r1) !! "/tmp/sqlserver/srv1/mycustomQueries/keep.txt"
    = None ∧
  classify "customQueries" file = MetadataFile ∧
  crash_of r2 = Some OutOfRange ∧
  queries (trace (world_of r2)) = 0%nat.
Proof. vm_compute. repeat split. Qed.

(** ** Directory entries *)

Lemma strip_prefix_append (p s : string) : strip_prefix p (p +:+ s) = Some s.
Proof.
  induction p as [|a p IH]; [done|].
  rewrite append_String. simpl. by rewrite Ascii.eqb_refl.
Qed.

Lemma strip_prefix_Some (p k n : string) :
  strip_prefix p k = Some n → k = p +:+ n.
Proof.
  revert k. induction p as [|a p IH]; intros k H; simpl in H.
  - by injection H as ->.
  - destruct k as [|b k]; [done|].
    destruct (Ascii.eqb a b) eqn:Hab; [|done].
    apply Ascii.eqb_eq in Hab as ->. rewrite append_String.
    f_equal. by apply IH.
Qed.

Lemma child_name_child (d n : string) :
  valid_name n = true → child_name d (d +:+ "/" +:+ n) = Some n.
Proof.
  intros Hn. unfold child_name.
  rewrite <- append_assoc, strip_prefix_append. by rewrite Hn.
Qed.

Lemma child_name_Some (d k n : string) :
  child_name d k = Some n → k = d +:+ "/" +:+ n ∧ valid_name n = true.
Proof.
  unfold child_name. intros H.
  destruct (strip_prefix (d +:+ "/") k) as [n'|] eqn:Hs; [|done].
  destruct (valid_name n') eqn:Hv; [|done]. injection H as ->.
  apply strip_prefix_Some in Hs. by rewrite append_assoc in Hs.
Qed.

(** The entries of a directory are its valid names with their types. *)
Lemma elem_of_dir_entries (d : string) (fs : gmap string node) (de : dirent) :
  de ∈ dir_entries d fs ↔
  ∃ v, fs !! (d +:+ "/" +:+ d_name de) = Some v ∧
       valid_name (d_name de) = true ∧ d_type de = dtype v.
Proof.
  unfold dir_entries. rewrite list_elem_of_omap. split.
  - intros ([k v] & Hin & Hde). apply elem_of_map_to_list in Hin.
    simpl in Hde. destruct (child_name d k) as [n|] eqn:Hc; [|done].
    injection Hde as <-. simpl.
    apply child_name_Some in Hc as [-> Hv]. eauto.
  - intros (v & Hlook & Hv & Ht).
    exists (d +:+ "/" +:+ d_name de, v). split.
    + by apply elem_of_map_to_list.
    + simpl. rewrite (child_name_child _ _ Hv). destruct de as [n t].
      simpl in *. by rewrite Ht.
Qed.

Lemma length_append (a b : string) :
  String.length (a +:+ b) = (String.length a + String.length b)%nat.
Proof.
  induction a as [|x a IH]; [done|].
  rewrite append_String. simpl. by rewrite IH.
Qed.

Lemma child_ne_dir (d n : string) : d +:+ "/" +:+ n ≠ d.
Proof.
  intros H. apply (f_equal String.length) in H.
  rewrite !length_append in H. simpl in H. lia.
Qed.

(** ** The [readdir] loop *)



(** ** Reconciling the custom-query directory *)















(** The run behind it: the directory was made through the mount, [opendir]
    returns 0, the stale file is gone, the other source entry has its
    placeholder, and [a.sql] is still the directory. *)
Example opendir_leaves_subdirectory_run :
  let w' := world_of (OpendirLocalImpl Sample.env "/srv1/customQueries"
                        Sample.fi0 subdir_store) in
  classify "customQueries" "/srv1/customQueries" = CustomQueryDir ∧
  value_of (MkdirLocalImpl Sample.env "/srv1/customQueries/a.sql"
              DEFAULT_PERMISSIONS Sample.mounted) = Some 0 ∧
  source_entries Sample.env "srv1" = ["a.sql"; "b.sql"] ∧
  value_of (OpendirLocalImpl Sample.env "/srv1/customQueries" Sample.fi0
              subdir_store) = Some (0, set_fh 1 Sample.fi0) ∧
  files w' !! "/tmp/sqlserver/srv1/customQueries/old.sql" = None ∧
  files w' !! "/tmp/sqlserver/srv1/customQueries/b.sql" = Some (Reg []) ∧
  files w' !! "/tmp/sqlserver/srv1/customQueries/a.sql" = Some Dir.
Proof. vm_compute. repeat split. Qed.

(** * Further properties of the driver *)

(** ** Reading, writing and allocating through a handle *)

Lemma sys_pread_keeps (fd size offset : Z) (w : World) :
  ∃ r w', sys_pread fd size offset w = Ok r w' ∧
          fds w' = fds w ∧ files w' = files w ∧ dirs w' = dirs w.
Proof.
  unfold sys_pread. destruct (fds w !! fd) as [o|]; [|by do 2 eexists].
  destruct (of_mode o =? O_WRONLY); [by do 2 eexists|].
  destruct (offset <? 0); [by do 2 eexists|].
  destruct (files w !! of_path o) as [[|]|]; by do 2 eexists.
Qed.

Lemma sys_pwrite_keeps (fd : Z) (buf : list byte) (offset : Z) (w : World) :
  ∃ r w', sys_pwrite fd buf offset w = Ok r w' ∧
          fds w' = fds w ∧ dirs w' = dirs w.
Proof.
  unfold sys_pwrite. destruct (fds w !! fd) as [o|]; [|by do 2 eexists].
  destruct (of_mode o =? O_RDONLY); [by do 2 eexists|].
  destruct (offset <? 0); [by do 2 eexists|].
  destruct (files w !! of_path o) as [[|]|]; try by do 2 eexists.
  destruct (fits _ _ _), buf; by do 2 eexists.
Qed.

Lemma sys_posix_fallocate_keeps (fd offset len : Z) (w : World) :
  ∃ r w', sys_posix_fallocate fd offset len w = Ok r w' ∧
          fds w' = fds w ∧ dirs w' = dirs w.
Proof.
  unfold sys_posix_fallocate. destruct (fds w !! fd) as [o|]; [|by do 2 eexists].
  destruct (of_mode o =? O_RDONLY); [by do 2 eexists|].
  destruct ((offset <? 0) || (len <=? 0)); [by do 2 eexists|].
  destruct (files w !! of_path o) as [[|]|]; try by do 2 eexists.
  destruct (_ <? _)%nat; by do 2 eexists.
Qed.

(** X1.  A read, write or fallocate that comes with a handle always
    returns, and neither opens nor closes a descriptor: the descriptor
    table is afterwards what it was, and a read changes no file. *)
Theorem live_handle_keeps_descriptors (E : Env) (path : string)
    (fi : fuse_file_info) (w : World) :
  (∀ size offset, ∃ r w',
     ReadLocalImpl E path size offset (Some fi) w = Ok r w' ∧
     fds w' = fds w ∧ files w' = files w) ∧
  (∀ buf size offset, ∃ r w',
     WriteLocalImpl E path buf size offset (Some fi) w = Ok r w' ∧
     fds w' = fds w) ∧
  (∀ mode offset length, ∃ r w',
     FallocateLocalImpl E path mode offset length (Some fi) w = Ok r w' ∧
     fds w' = fds w).
Proof.
  split; [|split].
  - intros size offset. unfold ReadLocalImpl. run. simpl.
    destruct (to_int (fh fi) =? -1); simpl; [by do 2 eexists|].
    destruct (sys_pread_keeps (to_int (fh fi)) size offset w)
      as ([n got] & w1 & -> & Hfds & Hfiles & _).
    unfold ReturnErrnoAndPrintError.
    destruct (to_int n =? -1); simpl; by do 2 eexists.
  - intros buf size offset. unfold WriteLocalImpl. run. simpl.
    destruct (IsDbfsFile E path); simpl; [by do 2 eexists|].
    destruct (to_int (fh fi) =? -1); simpl; [by do 2 eexists|].
    destruct (sys_pwrite_keeps (to_int (fh fi)) (take (Z.to_nat size) buf)
                offset w) as (n & w1 & -> & Hfds & _).
    unfold ReturnErrnoAndPrintError.
    destruct (to_int n =? -1); simpl; by do 2 eexists.
  - intros mode offset length. unfold FallocateLocalImpl. run. simpl.
    destruct (to_int (fh fi) =? -1); simpl; [by do 2 eexists|].
    destruct (mode =? 0); simpl; [|by do 2 eexists].
    destruct (sys_posix_fallocate_keeps (to_int (fh fi)) offset length w)
      as (n & w1 & -> & Hfds & _).
    by do 2 eexists.
Qed.

Lemma to_int_small (z : Z) : - 2 ^ 31 ≤ z < 2 ^ 31 → to_int z = z.
Proof.
  intros Hz. unfold to_int. rewrite Z.mod_small; lia.
Qed.

Lemma write_at_read (data buf : list byte) (off : nat) :
  take (length buf) (drop off (write_at data off buf)) = buf.
Proof.
  unfold write_at.
  assert (length (take off (data ++ replicate (off - length data) x00)) = off)
    as Hlen.
  { rewrite length_take, length_app, length_replicate. lia. }
  rewrite drop_app_length'; [|by rewrite Hlen].
  by rewrite take_app_length.
Qed.

(** A positioned write that has room for the whole buffer. *)
Lemma sys_pwrite_full (fd : Z) (buf : list byte) (offset : Z) (w : World)
    (o : ofile) (data : list byte) :
  fds w !! fd = Some o → of_mode o ≠ O_RDONLY → 0 ≤ offset →
  files w !! of_path o = Some (Reg data) →
  fits (room w) (Z.to_nat offset) (length buf) = length buf →
  sys_pwrite fd buf offset w =
  Ok (Z.of_nat (length buf))
     (log (EvPwrite fd buf offset (Z.of_nat (length buf)))
        (set_files (<[of_path o :=
                        Reg (write_at data (Z.to_nat offset) buf)]> (files w))
           w)).
Proof.
  intros Hfd Hmode Hoff Hfile Hfits. unfold sys_pwrite.
  rewrite Hfd. apply Z.eqb_neq in Hmode. rewrite Hmode.
  assert ((offset <? 0) = false) as -> by (apply Z.ltb_ge; lia).
  rewrite Hfile, Hfits.
  destruct buf as [|b buf]; simpl; [reflexivity|].
  by rewrite firstn_all.
Qed.

(** X2.  Round trip on a file that is not driver-owned: bytes written
    through a read-write handle at an offset, where the store has room for
    them, are what a read of that length at that offset returns, and both
    calls return the length. *)
Theorem write_then_read_round_trip (E : Env) (path : string)
    (fi : fuse_file_info) (w : World) (o : ofile) (data buf : list byte)
    (offset : Z) :
  IsDbfsFile E path = false →
  0 ≤ to_int (fh fi) →
  fds w !! to_int (fh fi) = Some o → of_mode o = O_RDWR →
  files w !! of_path o = Some (Reg data) →
  0 ≤ offset →
  fits (room w) (Z.to_nat offset) (length buf) = length buf →
  Z.of_nat (length buf) < 2 ^ 31 →
  let size := Z.of_nat (length buf) in
  ∃ w1 w2,
    WriteLocalImpl E path buf size offset (Some fi) w = Ok size w1 ∧
    ReadLocalImpl E path size offset (Some fi) w1 = Ok (size, buf) w2.
Proof.
  intros Hdbfs Hfd0 Hfd Hmode Hfile Hoff Hfits Hlen size.
  assert ((to_int (fh fi) =? -1) = false) as Hne by (apply Z.eqb_neq; lia).
  assert (to_int size = size) as Hsize by (apply to_int_small; lia).
  assert ((size =? -1) = false) as Hs1 by (apply Z.eqb_neq; lia).
  assert (Z.to_nat size = length buf) as Hnat by apply Nat2Z.id.
  unfold WriteLocalImpl. rewrite Hdbfs. run. simpl. rewrite Hne. simpl.
  rewrite Hnat, firstn_all.
  rewrite (sys_pwrite_full _ _ _ _ o data Hfd); try done;
    [|rewrite Hmode; discriminate].
  fold size. rewrite Hsize, Hs1.
  eexists _, _. split; [reflexivity|].
  unfold ReadLocalImpl, sys_pread. run. simpl. rewrite Hne. simpl.
  rewrite Hfd, Hmode. simpl.
  assert ((offset <? 0) = false) as -> by (apply Z.ltb_ge; lia).
  rewrite lookup_insert_eq, Hnat, write_at_read.
  fold size. rewrite Hsize, Hs1. reflexivity.
Qed.

Lemma write_then_read_round_trip_witness :
  ∃ w1 w2,
    WriteLocalImpl Sample.env "/notes.txt" [x41; x42; x43] 3 1
      (Some {| flags := O_RDWR; fh := 0 |}) plain_store = Ok 3 w1 ∧
    ReadLocalImpl Sample.env "/notes.txt" 3 1
      (Some {| flags := O_RDWR; fh := 0 |}) w1 = Ok (3, [x41; x42; x43]) w2.
Proof.
  apply (write_then_read_round_trip Sample.env "/notes.txt"
           {| flags := O_RDWR; fh := 0 |} plain_store
           {| of_path := "/tmp/sqlserver/notes.txt"; of_mode := O_RDWR |}
           [x68; x69] [x41; x42; x43] 1);
    try reflexivity; vm_compute; congruence.
Defined.

(** X3.  The handle an open that failed after its native open leaves
    behind reads back as descriptor -1.  With it nothing is done, and the
    three callbacks answer differently: read returns -1, fallocate returns
    0, and write returns 0 unless the path is driver-owned. *)
Theorem closed_handle_results (E : Env) (path : string)
    (fi : fuse_file_info) (w : World) :
  to_int (fh fi) = -1 →
  (∀ size offset,
     ReadLocalImpl E path size offset (Some fi) w = Ok (-1, []) w) ∧
  (∀ mode offset length,
     FallocateLocalImpl E path mode offset length (Some fi) w = Ok 0 w) ∧
  (∀ buf size offset,
     WriteLocalImpl E path buf size offset (Some fi) w =
     Ok (if IsDbfsFile E path then - EPERM else 0) w).
Proof.
  intros Hfd. repeat split; intros.
  - unfold ReadLocalImpl. run. simpl. by rewrite Hfd.
  - unfold FallocateLocalImpl. run. simpl. by rewrite Hfd.
  - unfold WriteLocalImpl. run. simpl.
    destruct (IsDbfsFile E path); simpl; [done|]. by rewrite Hfd.
Qed.

Lemma closed_handle_results_witness :
  to_int (fh (set_fh (to_uint64 (-1)) Sample.fi0)) = -1 ∧
  ReadLocalImpl Sample.env "/srv1/dm_os_hosts" 10 0
    (Some (set_fh (to_uint64 (-1)) Sample.fi0)) Sample.mounted
  = Ok (-1, []) Sample.mounted.
Proof.
  split; [reflexivity|].
  apply (closed_handle_results Sample.env "/srv1/dm_os_hosts"
           (set_fh (to_uint64 (-1)) Sample.fi0) Sample.mounted).
  reflexivity.
Defined.



(** X5.  [fallocate] with mode 0 through a writable handle, where the
    store has room: it returns 0, the file is at least [offset + length]
    bytes long afterwards and no longer than that unless it already was,
    and the bytes it held are kept. *)
Theorem fallocate_extends (E : Env) (path : string) (offset length : Z)
    (fi : fuse_file_info) (w : World) (o : ofile) (data : list byte) :
  to_int (fh fi) ≠ -1 →
  fds w !! to_int (fh fi) = Some o → of_mode o ≠ O_RDONLY →
  files w !! of_path o = Some (Reg data) →
  0 ≤ offset → 0 < length →
  fits (room w) 0 (Z.to_nat (offset + length)) = Z.to_nat (offset + length) →
  ∃ w' data',
    FallocateLocalImpl E path 0 offset length (Some fi) w = Ok 0 w' ∧
    files w' !! of_path o = Some (Reg data') ∧
    take (List.length data) data' = data ∧
    List.length data' =
      Nat.max (List.length data) (Z.to_nat (offset + length)) ∧
    fds w' = fds w.
Proof.
  intros Hfd1 Hfd Hmode Hfile Hoff Hlen Hfits.
  apply Z.eqb_neq in Hfd1, Hmode.
  unfold FallocateLocalImpl, sys_posix_fallocate. run. simpl.
  rewrite Hfd1. simpl. rewrite Hfd, Hmode.
  assert ((offset <? 0) || (length <=? 0) = false) as ->.
  { apply orb_false_iff. split; [apply Z.ltb_ge|apply Z.leb_gt]; lia. }
  rewrite Hfile, Hfits, Nat.ltb_irrefl. simpl.
  eexists _, _. split; [reflexivity|]. simpl. rewrite lookup_insert_eq.
  split; [reflexivity|].
  destruct (List.length data <? Z.to_nat (offset + length))%nat eqn:Hlt.
  - apply Nat.ltb_lt in Hlt. unfold resize.
    rewrite (take_ge data) by lia. rewrite take_app_length.
    rewrite length_app, length_replicate. repeat split; auto. lia.
  - apply Nat.ltb_ge in Hlt. rewrite firstn_all. repeat split; auto. lia.
Qed.

Lemma fallocate_extends_witness :
  ∃ w' data',
    FallocateLocalImpl Sample.env "/notes.txt" 0 1 4
      (Some {| flags := O_RDWR; fh := 0 |}) plain_store = Ok 0 w' ∧
    files w' !! "/tmp/sqlserver/notes.txt" = Some (Reg data') ∧
    take 2 data' = [x68; x69] ∧ List.length data' = 5%nat.
Proof.
  destruct (fallocate_extends Sample.env "/notes.txt" 1 4
              {| flags := O_RDWR; fh := 0 |} plain_store
              {| of_path := "/tmp/sqlserver/notes.txt"; of_mode := O_RDWR |}
              [x68; x69])
    as (w' & data' & Hrun & Hfile & Hkeep & Hlen & _);
    try reflexivity; try discriminate; try lia.
  exists w', data'. auto.
Defined.

(** ** Opening and releasing *)

(** X6.  [open] of a path that is not driver-owned only redirects: it
    always returns, no file changes and no collaborator is called.  Either
    the native open succeeded, the result is 0 and the new descriptor is
    stored in the handle, or it failed, the result is negative, and handle
    and descriptor table are as before. *)
Theorem open_passthrough (E : Env) (path : string) (fi : fuse_file_info)
    (w : World) :
  IsDbfsFile E path = false →
  ∃ err fi' w',
    OpenLocalImpl E path fi w = Ok (err, fi') w' ∧
    files w' = files w ∧ queries (trace w') = queries (trace w) ∧
    ((err = 0 ∧ fi' = set_fh (to_uint64 (next_fd w)) fi ∧
      fds w' = <[next_fd w :=
                   {| of_path := CalculateDumpPath E path;
                      of_mode := Z.land (flags fi) O_ACCMODE |}]> (fds w)) ∨
     (err < 0 ∧ fi' = fi ∧ fds w' = fds w)).
Proof.
  intros Hdbfs. unfold OpenLocalImpl, sys_open. run. rewrite Hdbfs.
  assert (∀ t e, queries (t ++ [EvOpen (CalculateDumpPath E path) (flags fi) e])
                 = queries t) as Hq.
  { intros t e. rewrite queries_app. unfold queries at 2. simpl. lia. }
  pose proof (next_fd_nonneg w) as Hfd.
  destruct (files w !! CalculateDumpPath E path) as [[data|]|]; simpl.
  - rewrite Hfd. simpl. do 3 eexists. split; [reflexivity|]. simpl.
    rewrite Hq. split; [done|]. split; [done|]. left. auto.
  - destruct (Z.land (flags fi) O_ACCMODE =? O_RDONLY); simpl.
    + rewrite Hfd. simpl. do 3 eexists. split; [reflexivity|]. simpl.
      rewrite Hq. split; [done|]. split; [done|]. left. auto.
    + do 3 eexists. split; [reflexivity|]. simpl.
      rewrite Hq. split; [done|]. split; [done|]. right.
      split; [reflexivity|auto].
  - do 3 eexists. split; [reflexivity|]. simpl.
    rewrite Hq. split; [done|]. split; [done|]. right.
    split; [reflexivity|auto].
Qed.

Lemma open_passthrough_witness :
  ∃ fi' w',
    OpenLocalImpl Sample.env "/notes.txt" {| flags := O_RDONLY; fh := 0 |}
      plain_store = Ok (0, fi') w' ∧
    fh fi' = 1 ∧ queries (trace w') = 0%nat.
Proof.
  destruct (open_passthrough Sample.env "/notes.txt"
              {| flags := O_RDONLY; fh := 0 |} plain_store eq_refl)
    as (err & fi' & w' & Hrun & _ & Hq & [(-> & -> & _)|(Hneg & _ & _)]).
  - eexists; exists w'. split; [exact Hrun|]. split; [reflexivity|exact Hq].
  - exfalso. vm_compute in Hrun. injection Hrun as <- _ _.
    vm_compute in Hneg. discriminate Hneg.
Defined.

(** X7.  [open] of a metadata file writes the response at offset 0 and
    does not truncate: where the backing file already holds bytes, those
    beyond the length of the response stay behind it. *)
Theorem open_overwrites_without_truncating (E : Env)
    (path servername filename : string) (rest : list string)
    (fi : fuse_file_info) (w : World) (data : list byte) :
  Split path "/" = servername :: filename :: rest →
  IsDbfsFile E path = true →
  strstr path (CUSTOM_QUERY_FOLDER_NAME E) = false →
  files w !! CalculateDumpPath E path = Some (Reg data) →
  dmv_status E servername filename = 0 →
  room w = None →
  let response := dmv_response E servername filename in
  ∃ w',
    OpenLocalImpl E path fi w =
      Ok (0, set_fh (to_uint64 (next_fd w)) fi) w' ∧
    files w' !! CalculateDumpPath E path =
      Some (Reg (response ++ drop (length response) data)).
Proof.
  intros Htokens Hdbfs Hmark Hfile Hstatus Hroom response.
  destruct (OpenLocalImpl_metadata_run E path servername filename rest
              Htokens Hdbfs Hmark fi w data Hfile)
    as (err & fi' & w' & Hrun & _ & _ & Hcases).
  cbv zeta in Hcases. rewrite Hstatus, Hroom, pwrite0_unlimited in Hcases.
  simpl in Hcases.
  assert ((Z.of_nat (length (dmv_response E servername filename)) =? -1)
          = false) as Hpos by (apply Z.eqb_neq; lia).
  rewrite Hpos in Hcases.
  destruct Hcases as (-> & Hfiles & _ & _ & ->).
  exists w'. split; [exact Hrun|exact Hfiles].
Qed.

Lemma open_overwrites_without_truncating_witness :
  files Sample.opened !! "/tmp/sqlserver/srv1/dm_os_hosts"
    = Some (Reg [x72; x6f; x77; x73]) ∧
  ∃ fi' w',
    OpenLocalImpl env_short "/srv1/dm_os_hosts" Sample.fi0 Sample.opened
      = Ok (0, fi') w' ∧
    files w' !! "/tmp/sqlserver/srv1/dm_os_hosts"
      = Some (Reg [x6f; x6b; x77; x73]).
Proof.
  split; [reflexivity|].
  destruct (open_overwrites_without_truncating env_short "/srv1/dm_os_hosts"
              "srv1" "dm_os_hosts" [] Sample.fi0 Sample.opened
              [x72; x6f; x77; x73])
    as (w' & Hrun & Hfile); try reflexivity.
  eexists; exists w'. split; [exact Hrun|exact Hfile].
Defined.

(** What [release] leaves behind: the descriptor table without the handle,
    the backing file of a driver-owned path emptied, nothing else touched. *)
Lemma ReleaseLocalImpl_run (E : Env) (path : string) (fi : fuse_file_info)
    (w : World) :
  ∃ w',
    ReleaseLocalImpl E path fi w = Ok (close_result w (to_int (fh fi))) w' ∧
    fds w' = delete (to_int (fh fi)) (fds w) ∧
    dirs w' = dirs w ∧
    files w' =
      if IsDbfsFile E path then
        match files w !! CalculateDumpPath E path with
        | Some (Reg _) => <[CalculateDumpPath E path := Reg []]> (files w)
        | _ => files w
        end
      else files w.
Proof.
  unfold ReleaseLocalImpl, close_result. run.
  destruct (IsDbfsFile E path); cycle 1.
  { destruct (sys_close_run (to_int (fh fi)) w) as (r & Hr & Hc); rewrite Hr.
    destruct (fds w !! to_int (fh fi)) eqn:Hfd; subst r; eexists;
      (split; [reflexivity|]); simpl; repeat split; try reflexivity.
    symmetry. by apply delete_id. }
  destruct (TruncateLocalImpl_0_run E path w) as (t & c & Ht & _ & _).
  rewrite Ht.
  set (w1 := log _ _).
  assert (fds w1 = fds w) as Hfds1
    by (unfold w1; destruct (files w !! _) as [[|]|]; reflexivity).
  assert (dirs w1 = dirs w) as Hdirs1
    by (unfold w1; destruct (files w !! _) as [[|]|]; reflexivity).
  assert (files w1 = match files w !! CalculateDumpPath E path with
                     | Some (Reg _) =>
                         <[CalculateDumpPath E path := Reg []]> (files w)
                     | _ => files w
                     end) as Hfiles1
    by (unfold w1; destruct (files w !! _) as [[|]|]; reflexivity).
  clearbody w1.
  assert (∀ f : Z → M Z,
            match (if t =? -1 then ReturnErrnoAndPrintError else Ok t) w1 with
            | Ok a w'0 => f a w'0
            | Crash c0 w'0 => Crash c0 w'0
            end = f (if t =? -1 then - errno w1 else t) w1) as Hskip.
  { intros f. by destruct (t =? -1). }
  rewrite Hskip. clear Hskip.
  destruct (sys_close_run (to_int (fh fi)) w1) as (r & Hr & Hrc). rewrite Hr.
  rewrite <- Hfds1, <- Hdirs1, <- Hfiles1.
  destruct (fds w1 !! to_int (fh fi)) eqn:Hfd; subst r; eexists;
    (split; [reflexivity|]); simpl; repeat split; try reflexivity.
  symmetry. by apply delete_id.
Qed.

Lemma fd_round_trip (fd : Z) : 0 ≤ fd < 2 ^ 31 → to_int (to_uint64 fd) = fd.
Proof.
  intros Hfd. unfold to_uint64. rewrite Z.mod_small by lia.
  apply to_int_small. lia.
Qed.

Lemma next_fd_ge (w : World) : 0 ≤ next_fd w.
Proof. apply lowest_free_ge. Qed.

(** X8.  The content of a metadata file lives from [open] to [release]: a
    successful [open] followed by [release] with the handle it returned
    gives 0, leaves the descriptor table as it was before the [open], and
    leaves the backing file empty. *)
Theorem open_release_restores (E : Env)
    (path servername filename : string) (rest : list string)
    (fi : fuse_file_info) (w : World) (data : list byte) :
  Split path "/" = servername :: filename :: rest →
  IsDbfsFile E path = true →
  strstr path (CUSTOM_QUERY_FOLDER_NAME E) = false →
  files w !! CalculateDumpPath E path = Some (Reg data) →
  next_fd w < 2 ^ 31 →
  ∀ fi' w1,
    OpenLocalImpl E path fi w = Ok (0, fi') w1 →
    ∃ w2,
      ReleaseLocalImpl E path fi' w1 = Ok 0 w2 ∧
      fds w2 = fds w ∧
      files w2 !! CalculateDumpPath E path = Some (Reg []) ∧
      dirs w2 = dirs w.
Proof.
  intros Htokens Hdbfs Hmark Hfile Hsmall fi' w1 Hopen.
  destruct (OpenLocalImpl_metadata_run E path servername filename rest
              Htokens Hdbfs Hmark fi w data Hfile)
    as (err & fi1 & w1' & Hrun & Hdirs & _ & Hcases).
  cbv zeta in Hcases. rewrite Hopen in Hrun.
  injection Hrun as <- <- <-.
  pose proof (next_fd_ge w) as Hge.
  assert (fds w1 = fds (after_open (CalculateDumpPath E path) (flags fi) w) ∧
          fi' = set_fh (to_uint64 (next_fd w)) fi ∧
          ∃ data1, files w1 !! CalculateDumpPath E path = Some (Reg data1))
    as (Hfds & -> & data1 & Hfile1).
  { destruct (dmv_status E servername filename =? 0) eqn:Hs.
    - destruct Hcases as (Herr & Hf & _ & Hpost).
      destruct ((pwrite0 (room w) data
                   (dmv_response E servername filename)).1 =? -1).
      + discriminate Herr.
      + destruct Hpost as (? & ?). eauto.
    - destruct Hcases as (Herr & _). apply Z.eqb_neq in Hs. congruence. }
  destruct (ReleaseLocalImpl_run E path (set_fh (to_uint64 (next_fd w)) fi) w1)
    as (w2 & Hrel & Hfds2 & Hdirs2 & Hfiles2).
  simpl in Hrel, Hfds2. rewrite fd_round_trip in Hrel, Hfds2 by lia.
  unfold close_result in Hrel. rewrite Hfds in Hrel, Hfds2.
  unfold after_open in Hrel, Hfds2. simpl in Hrel, Hfds2.
  rewrite lookup_insert_eq in Hrel.
  rewrite (delete_insert_id _ _ _ (next_fd_fresh w)) in Hfds2.
  rewrite Hdbfs, Hfile1 in Hfiles2.
  exists w2. split; [exact Hrel|]. split; [exact Hfds2|].
  split; [by rewrite Hfiles2, lookup_insert_eq|congruence].
Qed.

Lemma open_release_restores_witness :
  ∃ fi' w1 w2,
    OpenLocalImpl Sample.env "/srv1/dm_os_hosts" Sample.fi0 Sample.mounted
      = Ok (0, fi') w1 ∧
    ReleaseLocalImpl Sample.env "/srv1/dm_os_hosts" fi' w1 = Ok 0 w2 ∧
    fds w2 = fds Sample.mounted ∧
    files w2 !! "/tmp/sqlserver/srv1/dm_os_hosts" = Some (Reg []).
Proof.
  assert (OpenLocalImpl Sample.env "/srv1/dm_os_hosts" Sample.fi0
            Sample.mounted = Ok (0, Sample.fi0) Sample.opened) as Hopen
    by (vm_compute; reflexivity).
  destruct (open_release_restores Sample.env "/srv1/dm_os_hosts"
              "srv1" "dm_os_hosts" [] Sample.fi0 Sample.mounted []
              ltac:(vm_compute; reflexivity) ltac:(vm_compute; reflexivity)
              ltac:(vm_compute; reflexivity) ltac:(vm_compute; reflexivity)
              ltac:(vm_compute; reflexivity) _ _ Hopen)
    as (w2 & Hrel & Hfds & Hfile & _).
  exists Sample.fi0, Sample.opened, w2. split; [exact Hopen|].
  split; [exact Hrel|]. split; [exact Hfds|exact Hfile].
Defined.

(** X9.  [open] of a custom-query file whose server is not in the registry,
    or has no source directory configured, succeeds without calling any
    collaborator: the only effect is the native open of the backing file. *)
Theorem open_custom_query_without_source (E : Env)
    (path servername filename : string) (rest : list string)
    (fi : fuse_file_info) (w : World) (data : list byte) :
  IsDbfsFile E path = true →
  Split path "/" = servername :: CUSTOM_QUERY_FOLDER_NAME E :: filename :: rest →
  files w !! CalculateDumpPath E path = Some (Reg data) →
  match GetServerInfo E servername with
  | Some si => m_customQueriesPath si = ""
  | None => True
  end →
  ∃ w',
    OpenLocalImpl E path fi w = Ok (0, set_fh (to_uint64 (next_fd w)) fi) w' ∧
    trace w' =
      trace w ++ [EvOpen (CalculateDumpPath E path) (flags fi) (next_fd w)].
Proof.
  intros Hdbfs Htokens Hfile Hsrc.
  destruct (OpenLocalImpl_custom_run E path servername filename rest fi w data
              Hdbfs Htokens Hfile) as (w' & Hrun & Htrace).
  exists w'. split; [exact Hrun|]. rewrite Htrace.
  destruct (GetServerInfo E servername) as [si|]; [|reflexivity].
  by rewrite Hsrc.
Qed.

Lemma open_custom_query_without_source_witness :
  ∃ fi' w',
    OpenLocalImpl Sample.env "/srv2/customQueries/q.sql" Sample.fi0
      stray_store = Ok (0, fi') w' ∧
    trace w' = [EvOpen "/tmp/sqlserver/srv2/customQueries/q.sql" O_RDONLY 0].
Proof.
  destruct (open_custom_query_without_source Sample.env
              "/srv2/customQueries/q.sql" "srv2" "q.sql" [] Sample.fi0
              stray_store [x41] eq_refl eq_refl eq_refl I)
    as (w' & Hrun & Htrace).
  eexists; exists w'. split; [exact Hrun|exact Htrace].
Defined.

(** X10.  [unlink] has no guard for driver-owned files, unlike [write]: the
    backing file of any path, a metadata file included, is removed, and the
    driver does not make it again; the next [open] of the path fails with
    [-ENOENT] before any query is sent. *)
Theorem unlink_then_open_fails (E : Env) (path : string)
    (fi : fuse_file_info) (w : World) (data : list byte) :
  files w !! CalculateDumpPath E path = Some (Reg data) →
  ∃ w1 w2,
    UnlinkLocalImpl E path w = Ok 0 w1 ∧
    files w1 = delete (CalculateDumpPath E path) (files w) ∧
    OpenLocalImpl E path fi w1 = Ok (- ENOENT, fi) w2 ∧
    files w2 = files w1 ∧ fds w2 = fds w ∧
    trace w2 = trace w ++
      [ EvUnlink (CalculateDumpPath E path) 0;
        EvOpen (CalculateDumpPath E path) (flags fi) (-1) ].
Proof.
  intros Hfile.
  set (w1 := log (EvUnlink (CalculateDumpPath E path) 0)
               (set_files (delete (CalculateDumpPath E path) (files w)) w)).
  assert (UnlinkLocalImpl E path w = Ok 0 w1) as Hun.
  { unfold UnlinkLocalImpl, sys_unlink. run. by rewrite Hfile. }
  assert (files w1 !! CalculateDumpPath E path = None) as Hgone
    by apply lookup_delete_eq.
  exists w1. eexists. split; [exact Hun|]. split; [reflexivity|].
  unfold OpenLocalImpl, sys_open. run. rewrite Hgone. simpl.
  split; [reflexivity|]. simpl. rewrite <- app_assoc. auto.
Qed.

Lemma unlink_then_open_fails_witness :
  IsDbfsFile Sample.env "/srv1/dm_os_hosts" = true ∧
  ∃ w1 w2,
    UnlinkLocalImpl Sample.env "/srv1/dm_os_hosts" Sample.mounted = Ok 0 w1 ∧
    OpenLocalImpl Sample.env "/srv1/dm_os_hosts" Sample.fi0 w1
      = Ok (- ENOENT, Sample.fi0) w2 ∧
    queries (trace w2) = 0%nat.
Proof.
  split; [reflexivity|].
  destruct (unlink_then_open_fails Sample.env "/srv1/dm_os_hosts" Sample.fi0
              Sample.mounted [] eq_refl)
    as (w1 & w2 & Hun & _ & Hopen & _ & _ & Htrace).
  exists w1, w2. split; [exact Hun|]. split; [exact Hopen|].
  rewrite Htrace. reflexivity.
Defined.

(** ** Directory streams *)

(** The loop of [ReaddirLocalImpl] changes nothing but the stream it reads,
    which it leaves behind the last entry it has read. *)
Lemma while_readdir_feed (dp : Z) (filler : fuse_fill_dir_t) :
  ∀ (rest : list dirent) (fuel : nat) (buf : dirbuf) (w : World)
    (st : dirstream),
    dirs w !! dp = Some st →
    drop (ds_pos st) (stream_buf st (files w)) = rest →
    (length rest < fuel)%nat →
    while_readdir fuel dp
      (λ de buf,
         let st_mode := Z.shiftl (d_type de) 12 in
         let r := filler buf (d_name de) st_mode in
         mret (negb (r.1 =? 0), r.2))
      buf w =
    Ok (feed filler buf rest).1
       (set_dirs (<[dp := advanced st (files w) (feed filler buf rest).2]>
                    (dirs w)) w).
Proof.
  induction rest as [|e rest IH]; intros fuel buf w st Hst Hrest Hfuel;
    (destruct fuel as [|fuel]; [simpl in Hfuel; lia|]);
    simpl; unfold mbind, M_bind, sys_readdir; rewrite Hst.
  - assert (stream_buf st (files w) !! ds_pos st = None) as ->.
    { apply lookup_ge_None. apply drop_nil_inv in Hrest. lia. }
    unfold advanced. by rewrite Nat.add_0_r.
  - assert (stream_buf st (files w) !! ds_pos st = Some e) as Hlook.
    { rewrite <- (Nat.add_0_r (ds_pos st)), <- lookup_drop, Hrest. done. }
    rewrite Hlook. unfold mret, M_ret. cbv beta iota zeta.
    set (st1 := {| ds_path := ds_path st;
                   ds_buf := Some (stream_buf st (files w));
                   ds_pos := Datatypes.S (ds_pos st) |}).
    set (w1 := set_dirs (<[dp:=st1]> (dirs w)) w).
    destruct ((filler buf (d_name e) (Z.shiftl (d_type e) 12)).1 =? 0);
      cbn [negb fst snd].
    + rewrite (IH fuel _ w1 st1).
      * f_equal. unfold w1, set_dirs. cbn [dirs files fds errno room trace].
        rewrite insert_insert_eq. do 2 f_equal. unfold advanced, st1.
        cbn [ds_path ds_pos stream_buf ds_buf]. f_equal. lia.
      * apply lookup_insert_eq.
      * change (drop (Datatypes.S (ds_pos st)) (stream_buf st (files w)) = rest).
        replace (Datatypes.S (ds_pos st)) with (ds_pos st + 1)%nat by lia.
        by rewrite <- drop_drop, Hrest.
      * simpl in Hfuel. lia.
    + unfold w1, st1, advanced. do 4 f_equal. lia.
Qed.

Lemma ReaddirLocalImpl_feed (path : string) (buf : dirbuf)
    (filler : fuse_fill_dir_t) (offset : Z) (fi : fuse_file_info) (w : World)
    (st : dirstream) :
  fh fi ≠ 0 → dirs w !! fh fi = Some st →
  let rest := drop (ds_pos st) (stream_buf st (files w)) in
  ReaddirLocalImpl path buf filler offset fi w =
  Ok (0, (feed filler buf rest).1)
     (set_dirs (<[fh fi := advanced st (files w) (feed filler buf rest).2]>
                  (dirs w)) w).
Proof.
  intros Hfh Hst rest. unfold ReaddirLocalImpl. apply Z.eqb_neq in Hfh.
  unfold mbind at 1, M_bind at 1. rewrite Hfh. unfold mret at 1, M_ret at 1.
  cbv beta iota. change (0 =? 0) with true. cbv beta iota.
  unfold mbind at 1, M_bind at 1. unfold readdir_loop.
  rewrite (while_readdir_feed (fh fi) filler rest _ buf w st Hst eq_refl).
  - reflexivity.
  - unfold entries_left. rewrite Hst. subst rest. rewrite length_drop. lia.
Qed.


Lemma feed_fill_upto (cap : nat) (l : list dirent) :
  ∀ buf : dirbuf,
    (length buf ≤ cap)%nat →
    feed (fill_upto cap) buf l =
      (buf ++ take (cap - length buf) (map filled l),
       Nat.min (Datatypes.S (cap - length buf)) (length l)).
Proof.
  induction l as [|e l IH]; intros buf Hcap.
  - simpl. by rewrite take_nil, app_nil_r.
  - cbn [feed]. cbv zeta.
    destruct (length buf <? cap)%nat eqn:Hlt.
    + assert (fill_upto cap buf (d_name e) (Z.shiftl (d_type e) 12)
              = (0, buf ++ [filled e])) as ->
        by (unfold fill_upto; by rewrite Hlt).
      apply Nat.ltb_lt in Hlt. cbn [fst snd]. change (0 =? 0) with true.
      cbv iota. rewrite IH by (rewrite length_app; simpl; lia).
      rewrite length_app. cbn [fst snd length map].
      replace (cap - length buf)%nat
        with (Datatypes.S (cap - (length buf + 1)))%nat by lia.
      rewrite <- app_assoc. f_equal.
    + assert (fill_upto cap buf (d_name e) (Z.shiftl (d_type e) 12)
              = (1, buf)) as ->
        by (unfold fill_upto; by rewrite Hlt).
      apply Nat.ltb_ge in Hlt. cbn [fst snd]. change (1 =? 0) with false.
      cbv iota. replace (cap - length buf)%nat with 0%nat by lia. simpl.
      by rewrite app_nil_r.
Qed.





(** X12.  When the filler refuses an entry, the loop of [readdir] stops,
    but the stream has already moved past that entry: the next [readdir] on
    the handle goes on behind it, so the refused entry is handed over by
    neither call.  Here the filler takes [cap] entries into an empty buffer
    and refuses the next one. *)
Theorem readdir_refused_entry_is_skipped (path : string) (cap : nat)
    (offset offset2 : Z) (fi : fuse_file_info) (w : World) (st : dirstream) :
  fh fi ≠ 0 → dirs w !! fh fi = Some st →
  let rest := drop (ds_pos st) (stream_buf st (files w)) in
  (cap < length rest)%nat →
  ∃ w1 w2,
    ReaddirLocalImpl path [] (fill_upto cap) offset fi w
      = Ok (0, map filled (take cap rest)) w1 ∧
    ReaddirLocalImpl path [] (fill_upto cap) offset2 fi w1
      = Ok (0, map filled (take cap (drop (Datatypes.S cap) rest))) w2 ∧
    files w2 = files w.
Proof.
  intros Hfh Hst rest Hcap.
  pose proof (ReaddirLocalImpl_feed path [] (fill_upto cap) offset fi w st
                Hfh Hst) as Hrun1.
  cbv zeta in Hrun1. fold rest in Hrun1.
  rewrite feed_fill_upto in Hrun1 by (simpl; lia).
  cbn [fst snd length app] in Hrun1. rewrite Nat.sub_0_r in Hrun1.
  rewrite Nat.min_l in Hrun1 by lia.
  set (st1 := advanced st (files w) (Datatypes.S cap)) in *.
  set (w1 := set_dirs (<[fh fi := st1]> (dirs w)) w) in *.
  assert (dirs w1 !! fh fi = Some st1) as Hst1 by apply lookup_insert_eq.
  pose proof (ReaddirLocalImpl_feed path [] (fill_upto cap) offset2 fi w1 st1
                Hfh Hst1) as Hrun2.
  cbv zeta in Hrun2.
  assert (drop (ds_pos st1) (stream_buf st1 (files w1))
          = drop (Datatypes.S cap) rest) as Hrest.
  { unfold st1, advanced, stream_buf at 1. cbn [ds_buf ds_pos].
    unfold rest. by rewrite drop_drop. }
  rewrite Hrest in Hrun2.
  rewrite feed_fill_upto in Hrun2 by (simpl; lia).
  cbn [fst snd length app] in Hrun2. rewrite Nat.sub_0_r in Hrun2.
  rewrite firstn_map in Hrun1, Hrun2.
  exists w1. eexists. split; [exact Hrun1|].
  split; [exact Hrun2|reflexivity].
Qed.

Lemma readdir_refused_entry_is_skipped_witness :
  ∃ w1 w2,
    ReaddirLocalImpl "/srv1" [] (fill_upto 3) 0
      {| flags := O_RDONLY; fh := 1 |} listing_store
    = Ok (0, [ ("."%string, S_IFDIR); (".."%string, S_IFDIR);
               ("customQueries_stats"%string, S_IFREG) ]) w1 ∧
    ReaddirLocalImpl "/srv1" [] (fill_upto 3) 3
      {| flags := O_RDONLY; fh := 1 |} w1
    = Ok (0, [ ("mycustomQueries"%string, S_IFDIR);
               ("dm_os_hosts.json.bak"%string, S_IFREG);
               ("dm_os_hosts.json"%string, S_IFREG) ]) w2.
Proof.
  destruct (readdir_refused_entry_is_skipped "/srv1" 3 0 3
              {| flags := O_RDONLY; fh := 1 |} listing_store
              {| ds_path := "/tmp/sqlserver/srv1"; ds_buf := None;
                 ds_pos := 0 |})
    as (w1 & w2 & Hrun1 & Hrun2 & _);
    [discriminate|reflexivity|vm_compute; lia|].
  exists w1, w2. split; [exact Hrun1|exact Hrun2].
Defined.

(** X13.  [opendir] of a directory whose path does not hold the reserved
    folder name only opens a stream: the result is 0, the handle is the
    non-null address of a new stream on the backing directory that has
    fetched nothing, and no file changes.  [releasedir] with that handle
    returns 0 and leaves the stream table as it was before the [opendir]. *)
Theorem opendir_then_releasedir (E : Env) (path : string)
    (fi : fuse_file_info) (w : World) :
  strstr path (CUSTOM_QUERY_FOLDER_NAME E) = false →
  files w !! CalculateDumpPath E path = Some Dir →
  ∃ dp w1 w2,
    OpendirLocalImpl E path fi w = Ok (0, set_fh dp fi) w1 ∧
    dp ≠ 0 ∧ dirs w !! dp = None ∧
    dirs w1 !! dp = Some {| ds_path := CalculateDumpPath E path;
                            ds_buf := None; ds_pos := 0 |} ∧
    files w1 = files w ∧ fds w1 = fds w ∧
    ReleasedirLocalImpl path (set_fh dp fi) w1 = Ok 0 w2 ∧
    dirs w2 = dirs w ∧ files w2 = files w ∧ fds w2 = fds w.
Proof.
  intros Hmark Hdir.
  set (dp := lowest_free (dirs w) 1 (size (dirs w))).
  assert (dp ≠ 0) as Hdp
    by (pose proof (lowest_free_ge (dirs w) (size (dirs w)) 1); unfold dp; lia).
  assert (dirs w !! dp = None) as Hfresh by apply lowest_free_fresh.
  exists dp. unfold OpendirLocalImpl, ReleasedirLocalImpl, sys_opendir,
    sys_closedir.
  run. rewrite Hdir. fold dp. cbn [set_fh fh].
  apply Z.eqb_neq in Hdp as Hdpb. rewrite Hdpb, Hmark. simpl.
  do 2 eexists. split; [reflexivity|]. cbn [dirs files fds log set_dirs].
  rewrite lookup_insert_eq. do 5 (split; [done|]).
  split; [reflexivity|]. cbn [dirs files fds log set_dirs].
  split; [by apply delete_insert_id|done].
Qed.

Lemma opendir_then_releasedir_witness :
  ∃ dp w1 w2,
    OpendirLocalImpl Sample.env "/srv1" Sample.fi0 Sample.mounted
      = Ok (0, set_fh dp Sample.fi0) w1 ∧
    dp ≠ 0 ∧
    ReleasedirLocalImpl "/srv1" (set_fh dp Sample.fi0) w1 = Ok 0 w2 ∧
    dirs w2 = dirs Sample.mounted.
Proof.
  destruct (opendir_then_releasedir Sample.env "/srv1" Sample.fi0
              Sample.mounted ltac:(vm_compute; reflexivity)
              ltac:(vm_compute; reflexivity))
    as (dp & w1 & w2 & Hopen & Hdp & _ & _ & _ & _ & Hrel & Hdirs & _).
  exists dp, w1, w2. split; [exact Hopen|]. split; [exact Hdp|].
  split; [exact Hrel|exact Hdirs].
Defined.



(** ** Content and attributes *)

(** What [open] of a metadata file leaves when the query succeeds and the
    store has no size limit. *)
Lemma OpenLocalImpl_metadata_ok (E : Env)
    (path servername filename : string) (rest : list string)
    (fi : fuse_file_info) (w : World) (data : list byte) :
  Split path "/" = servername :: filename :: rest →
  IsDbfsFile E path = true →
  strstr path (CUSTOM_QUERY_FOLDER_NAME E) = false →
  files w !! CalculateDumpPath E path = Some (Reg data) →
  dmv_status E servername filename = 0 →
  room w = None →
  let response := dmv_response E servername filename in
  ∃ w',
    OpenLocalImpl E path fi w =
      Ok (0, set_fh (to_uint64 (next_fd w)) fi) w' ∧
    files w' !! CalculateDumpPath E path =
      Some (Reg (response ++ drop (length response) data)) ∧
    fds w' = <[next_fd w := {| of_path := CalculateDumpPath E path;
                               of_mode := Z.land (flags fi) O_ACCMODE |}]>
               (fds w).
Proof.
  intros Htokens Hdbfs Hmark Hfile Hstatus Hroom response.
  destruct (OpenLocalImpl_metadata_run E path servername filename rest
              Htokens Hdbfs Hmark fi w data Hfile)
    as (err & fi' & w' & Hrun & _ & _ & Hcases).
  cbv zeta in Hcases. rewrite Hstatus, Hroom, pwrite0_unlimited in Hcases.
  simpl in Hcases.
  assert ((Z.of_nat (length (dmv_response E servername filename)) =? -1)
          = false) as Hpos by (apply Z.eqb_neq; lia).
  rewrite Hpos in Hcases.
  destruct Hcases as (-> & Hfiles & _ & Hfds & ->).
  exists w'. split; [exact Hrun|]. split; [exact Hfiles|exact Hfds].
Qed.



Lemma GetattrLocalImpl_found (E : Env) (path : string) (stbuf : stat)
    (w : World) (v : node) :
  files w !! CalculateDumpPath E path = Some v →
  GetattrLocalImpl E path stbuf w = Ok (0, stat_of v) w.
Proof.
  intros Hfile. unfold GetattrLocalImpl, sys_lstat. run. by rewrite Hfile.
Qed.

(** X16.  The size [getattr] reports for a metadata file follows its
    content: after a successful [open] it is the length of what the backing
    file then holds, the response and whatever lay behind it, and after the
    [release] it is 0 again. *)
Theorem getattr_size_between_open_and_release (E : Env)
    (path servername filename : string) (rest : list string)
    (fi : fuse_file_info) (stbuf : stat) (w : World) (data : list byte) :
  Split path "/" = servername :: filename :: rest →
  IsDbfsFile E path = true →
  strstr path (CUSTOM_QUERY_FOLDER_NAME E) = false →
  files w !! CalculateDumpPath E path = Some (Reg data) →
  dmv_status E servername filename = 0 →
  room w = None →
  let size := Nat.max (length (dmv_response E servername filename))
                      (length data) in
  ∃ fi' w1 w2,
    OpenLocalImpl E path fi w = Ok (0, fi') w1 ∧
    GetattrLocalImpl E path stbuf w1 =
      Ok (0, {| st_mode := S_IFREG; st_size := Z.of_nat size |}) w1 ∧
    ReleaseLocalImpl E path fi' w1 =
      Ok (close_result w1 (to_int (fh fi'))) w2 ∧
    GetattrLocalImpl E path stbuf w2 =
      Ok (0, {| st_mode := S_IFREG; st_size := 0 |}) w2.
Proof.
  intros Htokens Hdbfs Hmark Hfile Hstatus Hroom size.
  destruct (OpenLocalImpl_metadata_ok E path servername filename rest fi w
              data Htokens Hdbfs Hmark Hfile Hstatus Hroom)
    as (w1 & Hopen & Hfile1 & _).
  destruct (ReleaseLocalImpl_run E path
              (set_fh (to_uint64 (next_fd w)) fi) w1)
    as (w2 & Hrel & _ & _ & Hfiles2).
  rewrite Hdbfs, Hfile1 in Hfiles2.
  exists (set_fh (to_uint64 (next_fd w)) fi), w1, w2.
  split; [exact Hopen|]. split.
  - rewrite (GetattrLocalImpl_found E path stbuf w1 _ Hfile1).
    unfold stat_of. rewrite length_app, length_drop.
    do 3 f_equal. unfold size. lia.
  - split; [exact Hrel|].
    apply (GetattrLocalImpl_found E path stbuf w2 (Reg [])).
    rewrite Hfiles2. apply lookup_insert_eq.
Qed.

Lemma getattr_size_between_open_and_release_witness :
  ∃ fi' w1 w2,
    OpenLocalImpl Sample.env "/srv1/dm_os_hosts" Sample.fi0 Sample.mounted
      = Ok (0, fi') w1 ∧
    GetattrLocalImpl Sample.env "/srv1/dm_os_hosts"
      {| st_mode := 0; st_size := 0 |} w1
      = Ok (0, {| st_mode := S_IFREG; st_size := 4 |}) w1 ∧
    ReleaseLocalImpl Sample.env "/srv1/dm_os_hosts" fi' w1
      = Ok (close_result w1 (to_int (fh fi'))) w2 ∧
    GetattrLocalImpl Sample.env "/srv1/dm_os_hosts"
      {| st_mode := 0; st_size := 0 |} w2
      = Ok (0, {| st_mode := S_IFREG; st_size := 0 |}) w2.
Proof.
  apply (getattr_size_between_open_and_release Sample.env
           "/srv1/dm_os_hosts" "srv1" "dm_os_hosts" [] Sample.fi0
           {| st_mode := 0; st_size := 0 |} Sample.mounted []);
    vm_compute; reflexivity.
Defined.



(** ** Directories made and removed, and the life of the mount *)

Lemma dir_entries_insert_self (d : string) (v : node)
    (fs : gmap string node) :
  dir_entries d fs = [] → dir_entries d (<[d := v]> fs) = [].
Proof.
  intros Hempty.
  destruct (dir_entries d (<[d := v]> fs)) as [|e l] eqn:Hl; [done|].
  assert (e ∈ dir_entries d (<[d := v]> fs)) as Hin
    by (rewrite Hl; apply list_elem_of_here).
  apply elem_of_dir_entries in Hin as (u & Hlook & Hvalid & Htype).
  rewrite lookup_insert_ne in Hlook
    by (intros Heq; symmetry in Heq; by apply child_ne_dir in Heq).
  assert (e ∈ dir_entries d fs) as Hold
    by (apply elem_of_dir_entries; eauto).
  rewrite Hempty in Hold. by apply elem_of_nil in Hold.
Qed.

(** X18.  [mkdir] then [rmdir] through the mount: where the backing path
    is free and its parent is a directory, [mkdir] returns 0, [getattr]
    reports a directory, and [rmdir] returns 0 and leaves the files as they
    were before the [mkdir]. *)
Theorem mkdir_then_rmdir (E : Env) (path : string) (mode : Z)
    (stbuf : stat) (w : World) :
  files w !! CalculateDumpPath E path = None →
  is_dir (files w) (dirname (CalculateDumpPath E path)) = true →
  dir_entries (CalculateDumpPath E path) (files w) = [] →
  ∃ w1 w2,
    MkdirLocalImpl E path mode w = Ok 0 w1 ∧
    GetattrLocalImpl E path stbuf w1 =
      Ok (0, {| st_mode := S_IFDIR; st_size := 0 |}) w1 ∧
    RmdirLocalImpl E path w1 = Ok 0 w2 ∧
    files w2 = files w.
Proof.
  intros Hfree Hparent Hnone.
  unfold MkdirLocalImpl, RmdirLocalImpl, sys_mkdir, sys_rmdir. run.
  rewrite Hfree, Hparent. simpl.
  eexists. eexists. split; [reflexivity|]. split.
  { apply (GetattrLocalImpl_found E path stbuf _ Dir). simpl.
    apply lookup_insert_eq. }
  cbn [files log set_files]. rewrite lookup_insert_eq.
  rewrite (dir_entries_insert_self _ _ _ Hnone). simpl.
  split; [reflexivity|]. simpl. by apply delete_insert_id.
Qed.

Lemma mkdir_then_rmdir_witness :
  ∃ w1 w2,
    MkdirLocalImpl Sample.env "/srv1/work" DEFAULT_PERMISSIONS Sample.mounted
      = Ok 0 w1 ∧
    GetattrLocalImpl Sample.env "/srv1/work" {| st_mode := 0; st_size := 0 |}
      w1 = Ok (0, {| st_mode := S_IFDIR; st_size := 0 |}) w1 ∧
    RmdirLocalImpl Sample.env "/srv1/work" w1 = Ok 0 w2 ∧
    files w2 = files Sample.mounted.
Proof.
  apply (mkdir_then_rmdir Sample.env "/srv1/work" DEFAULT_PERMISSIONS
           {| st_mode := 0; st_size := 0 |} Sample.mounted);
    vm_compute; reflexivity.
Defined.

Lemma for_each_inv {A} (P : World → Prop) (f : A → M unit) (l : list A) :
  (∀ x w u w', f x w = Ok u w' → P w → P w') →
  ∀ w u w', for_each l f w = Ok u w' → P w → P w'.
Proof.
  intros Hf. induction l as [|x l IH]; simpl; intros w u w' Hrun HP.
  - unfold mret, M_ret in Hrun. by injection Hrun as _ <-.
  - run. destruct (f x w) as [u1 w1|c w1] eqn:Hfx; [|discriminate].
    eapply IH; [exact Hrun|]. eapply Hf; eauto.
Qed.

Lemma sys_mkdir_keeps (k path : string) (mode r : Z) (w w' : World) :
  sys_mkdir path mode w = Ok r w' →
  is_Some (files w !! k) → is_Some (files w' !! k).
Proof.
  unfold sys_mkdir. intros Hrun Hk.
  destruct (files w !! path); [by injection Hrun as _ <-|].
  destruct (is_dir _ _); injection Hrun as _ <-; [|done]. simpl.
  apply lookup_insert_is_Some'. by right.
Qed.

Lemma sys_create_keeps (k dir name : string) (r : Z) (w w' : World) :
  sys_create dir name w = Ok r w' →
  is_Some (files w !! k) → is_Some (files w' !! k).
Proof.
  unfold sys_create. intros Hrun Hk.
  destruct (files w !! dir) as [[|]|]; try by injection Hrun as _ <-.
  destruct (files w !! _) as [[|]|]; injection Hrun as _ <-; try done;
    simpl; apply lookup_insert_is_Some'; by right.
Qed.

Lemma CreateDbfsFiles_keeps (E : Env) (k servername hostname username
    password : string) (version : Z) (u : unit) (w w' : World) :
  CreateDbfsFiles E servername hostname username password version w = Ok u w' →
  is_Some (files w !! k) → is_Some (files w' !! k).
Proof.
  unfold CreateDbfsFiles. run. intros Hrun Hk.
  destruct (sys_mkdir _ _ w) as [r w1|c w1] eqn:Hmk; [|discriminate].
  apply (sys_mkdir_keeps k) in Hmk; [|exact Hk].
  revert Hrun Hmk.
  apply (for_each_inv (λ w, is_Some (files w !! k))).
  intros name w2 u2 w3 Hcr Hk2. run.
  destruct (sys_create _ _ w2) as [r2 w4|c w4] eqn:Hc; [|discriminate].
  injection Hcr as _ <-. by apply (sys_create_keeps k) in Hc.
Qed.

(** X19.  [DestroySQLFs] removes nothing: the backing root that
    [InitializeSQLFs] has made is still there after it, and a second
    [InitializeSQLFs] with the same backing root then ends in [KillSelf]
    before it creates anything. *)
Theorem remount_is_fatal (E : Env) (w w1 : World) :
  InitializeSQLFs E w = Ok tt w1 →
  DestroySQLFs w1 = Ok tt w1 ∧
  files w !! m_dumpPath E = None ∧
  is_Some (files w1 !! m_dumpPath E) ∧
  ∃ w2,
    InitializeSQLFs E w1 = Crash Killed w2 ∧
    files w2 = files w1 ∧ errno w2 = EEXIST.
Proof.
  intros Hinit. split; [reflexivity|].
  assert (files w !! m_dumpPath E = None ∧
          is_Some (files w1 !! m_dumpPath E)) as [Hfree [v Hroot]].
  { unfold InitializeSQLFs, sys_mkdir in Hinit. run.
    destruct (files w !! m_dumpPath E) eqn:Hroot; [discriminate|].
    split; [done|].
    destruct (is_dir (files w) (dirname (m_dumpPath E))); [|discriminate].
    simpl in Hinit.
    eapply (for_each_inv (λ w, is_Some (files w !! m_dumpPath E)));
      [|exact Hinit|].
    - intros x w' u w'' Hcr. eapply CreateDbfsFiles_keeps. exact Hcr.
    - simpl. rewrite lookup_insert_eq. by eexists. }
  split; [done|]. split; [by eexists|].
  unfold InitializeSQLFs, sys_mkdir, KillSelf. run. rewrite Hroot. simpl.
  eexists. split; [reflexivity|]. split; reflexivity.
Qed.

Lemma remount_is_fatal_witness :
  let w := Sample.world_of_files [("/tmp", Dir)] None in
  let w1 := world_of (InitializeSQLFs Sample.env w) in
  files w1 !! "/tmp/sqlserver/srv1/dm_os_hosts" = Some (Reg []) ∧
  ∃ w2, InitializeSQLFs Sample.env w1 = Crash Killed w2.
Proof.
  intros w w1. split; [vm_compute; reflexivity|].
  destruct (remount_is_fatal Sample.env w w1 ltac:(vm_compute; reflexivity))
    as (_ & _ & _ & w2 & Hrun & _).
  exists w2. exact Hrun.
Defined.
